(** * 2D transform editor (Image Formation/2D_editor.py)

    A shallow embedding of the editor's two classes,
    [TransformableRectItem] and [MainWindow], together with the part of
    the Qt geometry classes they call ([QPointF], [QRectF], [QTransform],
    [QGraphicsRectItem], [QGraphicsScene]).

    Numbers: Qt's [qreal] and Python's [float] are rendered as exact
    rationals [Q]; rounding, infinities and NaN are outside the model.
    Trigonometry ([QLineF.angle]) and Qt's default event handlers are
    taken as an interface, see [QtHost].  A handler that lets a Python
    exception escape is modelled by its [outcome]. *)

From Stdlib Require Import QArith Qabs List String Ascii Bool Arith Lia Lqa Permutation.
Import ListNotations.

Local Open Scope Q_scope.

(* ================================================================= *)
(** ** Qt value classes *)

Module QPointF.

Record t : Type := mk { x : Q; y : Q }.

(** [p - q], the operator used by [update_handles]. *)
Definition sub (p q : t) : t := mk (x p - x q) (y p - y q).

(** Coordinate-wise rational equality. *)
Definition eqv (p q : t) : Prop := x p == x q /\ y p == y q.

End QPointF.

Module QSizeF.

Record t : Type := mk { width : Q; height : Q }.

End QSizeF.

Module QRectF.

(** Qt stores a rectangle as its top-left corner and its size. *)
Record t : Type := mk { x : Q; y : Q; width : Q; height : Q }.

(** [QRectF(topLeft, bottomRight)]. *)
Definition of_points (tl br : QPointF.t) : t :=
  mk (QPointF.x tl) (QPointF.y tl)
     (QPointF.x br - QPointF.x tl) (QPointF.y br - QPointF.y tl).

(** [QRectF(topLeft, size)]. *)
Definition of_point_size (tl : QPointF.t) (s : QSizeF.t) : t :=
  mk (QPointF.x tl) (QPointF.y tl) (QSizeF.width s) (QSizeF.height s).

Definition left (r : t) : Q := x r.
Definition top (r : t) : Q := y r.
Definition right (r : t) : Q := x r + width r.
Definition bottom (r : t) : Q := y r + height r.

Definition topLeft (r : t) : QPointF.t := QPointF.mk (x r) (y r).
Definition topRight (r : t) : QPointF.t := QPointF.mk (x r + width r) (y r).
Definition bottomLeft (r : t) : QPointF.t := QPointF.mk (x r) (y r + height r).
Definition bottomRight (r : t) : QPointF.t :=
  QPointF.mk (x r + width r) (y r + height r).
Definition center (r : t) : QPointF.t :=
  QPointF.mk (x r + width r / 2) (y r + height r / 2).

(** The edge setters move one edge and keep the opposite one. *)
Definition setLeft (pos : Q) (r : t) : t :=
  let diff := pos - x r in
  mk (x r + diff) (y r) (width r - diff) (height r).
Definition setTop (pos : Q) (r : t) : t :=
  let diff := pos - y r in
  mk (x r) (y r + diff) (width r) (height r - diff).
Definition setRight (pos : Q) (r : t) : t :=
  mk (x r) (y r) (pos - x r) (height r).
Definition setBottom (pos : Q) (r : t) : t :=
  mk (x r) (y r) (width r) (pos - y r).

Definition setTopLeft (p : QPointF.t) (r : t) : t :=
  setTop (QPointF.y p) (setLeft (QPointF.x p) r).
Definition setTopRight (p : QPointF.t) (r : t) : t :=
  setTop (QPointF.y p) (setRight (QPointF.x p) r).
Definition setBottomLeft (p : QPointF.t) (r : t) : t :=
  setBottom (QPointF.y p) (setLeft (QPointF.x p) r).
Definition setBottomRight (p : QPointF.t) (r : t) : t :=
  setBottom (QPointF.y p) (setRight (QPointF.x p) r).

Definition Qltb (a b : Q) : bool := negb (Qle_bool b a).

(** [normalized()]: the same rectangle with non-negative size. *)
Definition normalized (r : t) : t :=
  let r1 := if Qltb (width r) 0
            then mk (x r + width r) (y r) (- width r) (height r)
            else r in
  if Qltb (height r1) 0
  then mk (x r1) (y r1 + height r1) (width r1) (- height r1)
  else r1.

(** [contains(point)]: edges included, a null rectangle contains nothing. *)
Definition contains (r : t) (p : QPointF.t) : bool :=
  let l := if Qltb (width r) 0 then x r + width r else x r in
  let rr := if Qltb (width r) 0 then x r else x r + width r in
  let tp := if Qltb (height r) 0 then y r + height r else y r in
  let b := if Qltb (height r) 0 then y r else y r + height r in
  if Qeq_bool l rr then false
  else if Qltb (QPointF.x p) l || Qltb rr (QPointF.x p) then false
  else if Qeq_bool tp b then false
  else if Qltb (QPointF.y p) tp || Qltb b (QPointF.y p) then false
  else true.

(** Field-wise rational equality. *)
Definition eqv (r s : t) : Prop :=
  x r == x s /\ y r == y s /\ width r == width s /\ height r == height s.

End QRectF.

Module QTransform.

(** The nine entries of the 3x3 matrix, row by row. *)
Record t : Type := mk {
  m11 : Q; m12 : Q; m13 : Q;
  m21 : Q; m22 : Q; m23 : Q;
  m31 : Q; m32 : Q; m33 : Q
}.

Definition identity : t := mk 1 0 0  0 1 0  0 0 1.

End QTransform.

(* ================================================================= *)
(** ** Modes, handles and the Qt item state *)

(** The five strings the toolbar passes to [set_transform_mode]. *)
Inductive TransformMode : Type :=
  | translation | rotation | scaling | affine | perspective.

(** The handle names that [update_handles] creates. *)
Inductive HandleName : Type :=
  | top_left | top_right | bottom_left | bottom_right | rotate.

Definition mode_eqb (a b : TransformMode) : bool :=
  match a, b with
  | translation, translation | rotation, rotation | scaling, scaling
  | affine, affine | perspective, perspective => true
  | _, _ => false
  end.

(** Python's [mode in [...]]. *)
Definition mode_in (m : TransformMode) (l : list TransformMode) : bool :=
  existsb (mode_eqb m) l.

Module QGraphicsSceneMouseEvent.

(** [pos] is what [event.pos()] returns: item coordinates. *)
Record t : Type := mk { pos : QPointF.t; scenePos : QPointF.t }.

End QGraphicsSceneMouseEvent.

Module QGraphicsRectItem.

(** What Qt keeps for a rectangle item.  The rotation and the
    transformation matrix are separate properties; the transform
    origin point is the pivot of the rotation property. *)
Record t : Type := mk {
  rect : QRectF.t;
  pos : QPointF.t;
  rotation : Q;
  transform : QTransform.t;
  transformOriginPoint : QPointF.t;
  isSelected : bool
}.

(** [QGraphicsRectItem(rect)] with Qt's defaults. *)
Definition init (r : QRectF.t) : t :=
  mk r (QPointF.mk 0 0) 0 QTransform.identity (QPointF.mk 0 0) false.

Definition setRect (r : QRectF.t) (q : t) : t :=
  mk r (pos q) (rotation q) (transform q) (transformOriginPoint q) (isSelected q).
Definition setPos (p : QPointF.t) (q : t) : t :=
  mk (rect q) p (rotation q) (transform q) (transformOriginPoint q) (isSelected q).
Definition setRotation (a : Q) (q : t) : t :=
  mk (rect q) (pos q) a (transform q) (transformOriginPoint q) (isSelected q).
Definition setTransform (m : QTransform.t) (q : t) : t :=
  mk (rect q) (pos q) (rotation q) m (transformOriginPoint q) (isSelected q).
Definition setSelected (b : bool) (q : t) : t :=
  mk (rect q) (pos q) (rotation q) (transform q) (transformOriginPoint q) b.

End QGraphicsRectItem.

(** What the editor takes from Qt without this development looking
    inside: the angle of a line, the effect of the default item
    handlers (the press and the release decide the selection, the
    move decides the position of a movable item) and the hit test of
    the scene (indices into the insertion order, top-most first). *)
Class QtHost : Type := {
  QLineF_angle : QPointF.t -> QPointF.t -> Q;
  press_selects : QGraphicsSceneMouseEvent.t -> QGraphicsRectItem.t -> bool;
  drag_pos : QGraphicsSceneMouseEvent.t -> QGraphicsRectItem.t -> QPointF.t;
  release_selects : QGraphicsSceneMouseEvent.t -> QGraphicsRectItem.t -> bool;
  scene_items_at : list QGraphicsRectItem.t -> QPointF.t -> list nat
}.

(** The Python exceptions a handler of the editor can let escape. *)
Inductive PyExc : Type :=
  | TypeError | IndexError.

(** How a handler ends: it returns, with the item as it then is, or an
    exception escapes from it and the item is as it was before. *)
Inductive outcome (A : Type) : Type :=
  | Returned (a : A)
  | Raised (e : PyExc).

Arguments Returned {A} a.
Arguments Raised {A} e.

(** Python's [l[i] = v] on a list; [None] stands for the IndexError
    outside the list. *)
Fixpoint list_assign {A : Type} (l : list A) (i : nat) (v : A) : option (list A) :=
  match l, i with
  | [], _ => None
  | _ :: tl, O => Some (v :: tl)
  | a :: tl, S j => option_map (cons a) (list_assign tl j v)
  end.

(** The cursor shapes [hoverMoveEvent] chooses from. *)
Inductive CursorShape : Type :=
  | ArrowCursor | CrossCursor | SizeFDiagCursor.

(* ================================================================= *)
(** ** class TransformableRectItem *)

Module TransformableRectItem.

Record t : Type := mk {
  qitem : QGraphicsRectItem.t;
  handle_size : Q;
  handles : list (HandleName * QRectF.t);
  handle_selected : option HandleName;
  transform_mode : TransformMode;
  original_rect : QRectF.t;
  original_corners : list QPointF.t
}.

Definition rect (it : t) : QRectF.t := QGraphicsRectItem.rect (qitem it).
Definition transform (it : t) : QTransform.t :=
  QGraphicsRectItem.transform (qitem it).
Definition rotation_property (it : t) : Q :=
  QGraphicsRectItem.rotation (qitem it).
Definition pos (it : t) : QPointF.t := QGraphicsRectItem.pos (qitem it).
Definition isSelected (it : t) : bool :=
  QGraphicsRectItem.isSelected (qitem it).

Definition with_qitem (q : QGraphicsRectItem.t) (it : t) : t :=
  mk q (handle_size it) (handles it) (handle_selected it)
     (transform_mode it) (original_rect it) (original_corners it).
Definition with_handles (hs : list (HandleName * QRectF.t)) (it : t) : t :=
  mk (qitem it) (handle_size it) hs (handle_selected it)
     (transform_mode it) (original_rect it) (original_corners it).
Definition with_handle_selected (h : option HandleName) (it : t) : t :=
  mk (qitem it) (handle_size it) (handles it) h
     (transform_mode it) (original_rect it) (original_corners it).
Definition with_transform_mode (m : TransformMode) (it : t) : t :=
  mk (qitem it) (handle_size it) (handles it) (handle_selected it)
     m (original_rect it) (original_corners it).
Definition with_original (r : QRectF.t) (cs : list QPointF.t) (it : t) : t :=
  mk (qitem it) (handle_size it) (handles it) (handle_selected it)
     (transform_mode it) r cs.

Definition setRect (r : QRectF.t) (it : t) : t :=
  with_qitem (QGraphicsRectItem.setRect r (qitem it)) it.
Definition setRotation (a : Q) (it : t) : t :=
  with_qitem (QGraphicsRectItem.setRotation a (qitem it)) it.
Definition setTransform (m : QTransform.t) (it : t) : t :=
  with_qitem (QGraphicsRectItem.setTransform m (qitem it)) it.
Definition setSelected (b : bool) (it : t) : t :=
  with_qitem (QGraphicsRectItem.setSelected b (qitem it)) it.

(** The corner list in the order the source writes it. *)
Definition corners_of (r : QRectF.t) : list QPointF.t :=
  [QRectF.topLeft r; QRectF.topRight r;
   QRectF.bottomRight r; QRectF.bottomLeft r].

(** [__init__(rect)]. *)
Definition init (r : QRectF.t) : t :=
  mk (QGraphicsRectItem.init r) 8 [] None translation r (corners_of r).

(** The square of side [s] centred on [p]. *)
Definition handle_rect (s : Q) (p : QPointF.t) : QRectF.t :=
  QRectF.of_point_size (QPointF.sub p (QPointF.mk (s / 2) (s / 2)))
                       (QSizeF.mk s s).

Definition update_handles (it : t) : t :=
  let s := handle_size it in
  let r := rect it in
  let corner :=
    if mode_in (transform_mode it) [scaling; affine; perspective]
    then [(top_left, handle_rect s (QRectF.topLeft r));
          (top_right, handle_rect s (QRectF.topRight r));
          (bottom_left, handle_rect s (QRectF.bottomLeft r));
          (bottom_right, handle_rect s (QRectF.bottomRight r))]
    else [] in
  let rot :=
    if mode_eqb (transform_mode it) rotation
    then
      let center_top :=
        QPointF.mk
          ((QPointF.x (QRectF.topLeft r) + QPointF.x (QRectF.topRight r)) / 2)
          (QRectF.top r - 20) in
      [(rotate, handle_rect s center_top)]
    else [] in
  with_handles (corner ++ rot) it.

(** The loop of [mousePressEvent]: first handle whose region holds
    [p]. *)
Fixpoint handle_at (hs : list (HandleName * QRectF.t)) (p : QPointF.t)
  : option HandleName :=
  match hs with
  | [] => None
  | (handle, r) :: tl =>
      if QRectF.contains r p then Some handle else handle_at tl p
  end.

Definition resize_item (p : QPointF.t) (it : t) : t :=
  let r := rect it in
  let r' :=
    match handle_selected it with
    | Some top_left => QRectF.setTopLeft p r
    | Some top_right => QRectF.setTopRight p r
    | Some bottom_left => QRectF.setBottomLeft p r
    | Some bottom_right => QRectF.setBottomRight p r
    | _ => r
    end in
  update_handles (setRect r' it).

Definition index_map (h : HandleName) : option nat :=
  match h with
  | top_left => Some 0%nat
  | top_right => Some 1%nat
  | bottom_right => Some 2%nat
  | bottom_left => Some 3%nat
  | rotate => None
  end.

Section Handlers.

Context {host : QtHost}.

Definition rotate_item (p : QPointF.t) (it : t) : t :=
  let center := QRectF.center (rect it) in
  let angle := QLineF_angle center p in
  setRotation (- angle) it.

(** [affine_transform_item].  PyQt6 binds the solver as
    [quadToQuad(one, two, result) -> bool]: the call of the source,
    with two polygons only, raises TypeError before anything is
    unpacked, so [setTransform] is never reached. *)
Definition affine_transform_item (p : QPointF.t) (it : t) : outcome t :=
  match handle_selected it with
  | Some h =>
      match index_map h with
      | Some i =>
          match list_assign (original_corners it) i p with
          | Some new_corners => Raised TypeError
          | None => Raised IndexError
          end
      | None => Returned it
      end
  | None => Returned it
  end.

(** The default handlers of [QGraphicsItem]. *)
Definition super_mousePressEvent (ev : QGraphicsSceneMouseEvent.t) (it : t) : t :=
  setSelected (press_selects ev (qitem it)) it.
Definition super_mouseMoveEvent (ev : QGraphicsSceneMouseEvent.t) (it : t) : t :=
  with_qitem (QGraphicsRectItem.setPos (drag_pos ev (qitem it)) (qitem it)) it.
Definition super_mouseReleaseEvent (ev : QGraphicsSceneMouseEvent.t) (it : t) : t :=
  setSelected (release_selects ev (qitem it)) it.

Definition mousePressEvent (ev : QGraphicsSceneMouseEvent.t) (it : t) : t :=
  let it1 :=
    if isSelected it
    then with_handle_selected
           (handle_at (handles it) (QGraphicsSceneMouseEvent.pos ev)) it
    else it in
  super_mousePressEvent ev it1.

Definition mouseMoveEvent (ev : QGraphicsSceneMouseEvent.t) (it : t) : outcome t :=
  match handle_selected it with
  | Some _ =>
      if mode_eqb (transform_mode it) scaling
      then Returned (resize_item (QGraphicsSceneMouseEvent.pos ev) it)
      else if mode_eqb (transform_mode it) rotation
      then Returned (rotate_item (QGraphicsSceneMouseEvent.pos ev) it)
      else if mode_in (transform_mode it) [affine; perspective]
      then affine_transform_item (QGraphicsSceneMouseEvent.pos ev) it
      else Returned (super_mouseMoveEvent ev it)
  | None => Returned (super_mouseMoveEvent ev it)
  end.

Definition mouseReleaseEvent (ev : QGraphicsSceneMouseEvent.t) (it : t) : t :=
  let it1 := with_handle_selected None it in
  let it2 := super_mouseReleaseEvent ev it1 in
  with_original (rect it2) (corners_of (rect it2)) it2.

End Handlers.

(** [original_corners] is always written together with
    [original_rect], as the four corners of that rectangle. *)
Definition frozen_ok (it : t) : Prop :=
  original_corners it = corners_of (original_rect it).

(** The loop of [hoverMoveEvent]: the cursor for the first handle whose
    region holds [p]. *)
Fixpoint hover_cursor (hs : list (HandleName * QRectF.t)) (p : QPointF.t)
  : option CursorShape :=
  match hs with
  | [] => None
  | (handle, r) :: tl =>
      if QRectF.contains r p
      then Some (match handle with
                 | rotate => CrossCursor
                 | _ => SizeFDiagCursor
                 end)
      else hover_cursor tl p
  end.

(** [hoverMoveEvent]: the cursor it sets; the item itself is not
    changed. *)
Definition hoverMoveEvent (ev : QGraphicsSceneMouseEvent.t) (it : t)
  : CursorShape :=
  if isSelected it then
    match hover_cursor (handles it) (QGraphicsSceneMouseEvent.pos ev) with
    | Some cursor => cursor
    | None => ArrowCursor
    end
  else ArrowCursor.

(** [paint]: the item afterwards and the handle regions drawn with the
    dashed pen (the rectangle itself is drawn by the base class). *)
Definition paint (it : t) : t * list QRectF.t :=
  if isSelected it then
    let it' := update_handles it in
    (it', List.map snd (handles it'))
  else (it, []).

(** The handle list is the one [update_handles] would compute now. *)
Definition handles_fresh (it : t) : Prop :=
  handles it = handles (update_handles it).

End TransformableRectItem.

(* ================================================================= *)
(** ** QGraphicsScene *)

Module QGraphicsScene.

(** The items of the scene in the order they were added.  All items
    are top-level and keep their default z value, so an item added
    later is stacked above the ones added before it. *)
Definition t : Type := list TransformableRectItem.t.

Definition addItem (it : TransformableRectItem.t) (s : t) : t := s ++ [it].

(** [items()], with Qt's default order [Qt.DescendingOrder]: the
    top-most item comes first ([item_at] in the source relies on the
    same order when it takes [items[0]] as the top-most item). *)
Definition items (s : t) : list TransformableRectItem.t := rev s.

Definition clear (s : t) : t := [].

End QGraphicsScene.

(* ================================================================= *)
(** ** The values [json.load] returns and [json.dump] takes *)

#[local] Unset Elimination Schemes.

Inductive json : Type :=
  | JNull
  | JBool (b : bool)
  | JNum (q : Q)
  | JStr (s : string)
  | JArr (l : list json)
  | JObj (kvs : list (string * json)).

#[local] Set Elimination Schemes.

Fixpoint assoc_lookup (k : string) (kvs : list (string * json)) : option json :=
  match kvs with
  | [] => None
  | (k', v) :: tl => if String.eqb k k' then Some v else assoc_lookup k tl
  end.

(** [v[k]] with a string key: the value of the key in a dict; KeyError
    for a missing key and TypeError on anything that is not a dict are
    both [None]. *)
Definition subscript (v : json) (k : string) : option json :=
  match v with
  | JObj kvs => assoc_lookup k kvs
  | _ => None
  end.

(** A Python value handed to a Qt parameter of type [float]: numbers
    pass ([bool] is a number in Python), anything else is a TypeError.
    A [JNum] stands for a number that a double holds; an integer
    beyond the range of doubles, which Qt refuses, is outside the
    model. *)
Definition as_float (v : json) : option Q :=
  match v with
  | JNum q => Some q
  | JBool b => Some (if b then 1 else 0)
  | _ => None
  end.

(** [for rect_data in rects]: a list gives its elements, a dict its
    keys, a string its characters; other values are not iterable. *)
Definition py_iter (v : json) : option (list json) :=
  match v with
  | JArr l => Some l
  | JObj kvs => Some (List.map (fun kv => JStr (fst kv)) kvs)
  | JStr s => Some (List.map (fun c => JStr (String c EmptyString)) (list_ascii_of_string s))
  | _ => None
  end.

(** What [open] followed by [json.load] gives for the chosen file. *)
Inductive file_read : Type :=
  | OpenFails
  | DecodeFails
  | Parsed (rects : json).

Definition bind {A B : Type} (o : option A) (f : A -> option B) : option B :=
  match o with
  | Some a => f a
  | None => None
  end.

Notation "x <- e ;; k" := (bind e (fun x => k))
  (at level 61, e at next level, right associativity).

(* ================================================================= *)
(** ** class MainWindow *)

Module QMouseEvent.

(** [scene_pos] is [view.mapToScene(event.position().toPoint())]. *)
Record t : Type := mk { scene_pos : QPointF.t; left_button : bool }.

End QMouseEvent.

Module MainWindow.

(** [current_rect] refers to an item of the scene: it is kept as the
    item's index in the insertion order. *)
Record t : Type := mk {
  scene : QGraphicsScene.t;
  current_rect : option nat;
  drawing : bool;
  transform_mode : TransformMode;
  start_pos : option QPointF.t
}.

Definition init : t := mk [] None false translation None.

Definition with_scene (s : QGraphicsScene.t) (w : t) : t :=
  mk s (current_rect w) (drawing w) (transform_mode w) (start_pos w).

(** Mutation of the item behind a reference. *)
Fixpoint update_at (s : QGraphicsScene.t) (i : nat)
    (f : TransformableRectItem.t -> TransformableRectItem.t) : QGraphicsScene.t :=
  match s, i with
  | [], _ => []
  | it :: tl, O => f it :: tl
  | it :: tl, S j => it :: update_at tl j f
  end.

Definition set_transform_mode (mode : TransformMode) (w : t) : t :=
  mk (List.map
        (fun item =>
           TransformableRectItem.update_handles
             (TransformableRectItem.with_transform_mode mode item))
        (scene w))
     (current_rect w) (drawing w) mode (start_pos w).

Section Events.

Context {host : QtHost}.

Definition item_at (ev : QMouseEvent.t) (w : t) : option nat :=
  let items :=
    scene_items_at (List.map TransformableRectItem.qitem (scene w))
                   (QMouseEvent.scene_pos ev) in
  match items with
  | i :: _ => Some i
  | [] => None
  end.

Definition mousePressEvent (ev : QMouseEvent.t) (w : t) : t :=
  match item_at ev w with
  | None =>
      if QMouseEvent.left_button ev then
        let start := QMouseEvent.scene_pos ev in
        let new_item :=
          TransformableRectItem.with_transform_mode (transform_mode w)
            (TransformableRectItem.init (QRectF.of_points start start)) in
        mk (QGraphicsScene.addItem new_item (scene w))
           (Some (List.length (scene w))) true (transform_mode w) (Some start)
      else w
  | Some _ => w
  end.

Definition mouseMoveEvent (ev : QMouseEvent.t) (w : t) : t :=
  match drawing w, current_rect w, start_pos w with
  | true, Some i, Some start =>
      let current_pos := QMouseEvent.scene_pos ev in
      let r := QRectF.normalized (QRectF.of_points start current_pos) in
      with_scene (update_at (scene w) i (TransformableRectItem.setRect r)) w
  | _, _, _ => w
  end.

Definition mouseReleaseEvent (ev : QMouseEvent.t) (w : t) : t :=
  if QMouseEvent.left_button ev && drawing w then
    match current_rect w with
    | Some i =>
        mk (update_at (scene w) i
              (fun it =>
                 let it1 := TransformableRectItem.update_handles it in
                 let it2 := TransformableRectItem.setSelected true it1 in
                 TransformableRectItem.with_original
                   (TransformableRectItem.rect it2)
                   (TransformableRectItem.corners_of (TransformableRectItem.rect it2))
                   it2))
           None false (transform_mode w) (start_pos w)
    | None => mk (scene w) None false (transform_mode w) (start_pos w)
    end
  else w.

End Events.

(** The dict [save_rectangles] appends for one item. *)
Definition record_of (item : TransformableRectItem.t) : json :=
  let r := TransformableRectItem.rect item in
  let m := TransformableRectItem.transform item in
  JObj [("x", JNum (QRectF.x r));
        ("y", JNum (QRectF.y r));
        ("width", JNum (QRectF.width r));
        ("height", JNum (QRectF.height r));
        ("transform",
         JObj [("m11", JNum (QTransform.m11 m));
               ("m12", JNum (QTransform.m12 m));
               ("m13", JNum (QTransform.m13 m));
               ("m21", JNum (QTransform.m21 m));
               ("m22", JNum (QTransform.m22 m));
               ("m23", JNum (QTransform.m23 m));
               ("m31", JNum (QTransform.m31 m));
               ("m32", JNum (QTransform.m32 m));
               ("m33", JNum (QTransform.m33 m))])]%string.

(** The list [rects] that [save_rectangles] hands to [json.dump]. *)
Definition saved_rects (w : t) : list json :=
  List.map record_of (QGraphicsScene.items (scene w)).

(** [save_rectangles]: nothing happens when the dialog gives no file
    name; otherwise the document below is handed to [json.dump].  The
    text [json.dump] writes is read back by [json.load] as the same
    value, so a saved file is [Parsed] of this document. *)
Definition save_rectangles (filename : string) (w : t) : option json :=
  if String.eqb filename "" then None else Some (JArr (saved_rects w)).

(** The body of the loading loop up to [self.scene.addItem(item)]:
    [None] when the record raises. *)
Definition load_item (mode : TransformMode) (rect_data : json)
  : option TransformableRectItem.t :=
  (x <- subscript rect_data "x" ;;
   y <- subscript rect_data "y" ;;
   width <- subscript rect_data "width" ;;
   height <- subscript rect_data "height" ;;
   x <- as_float x ;;
   y <- as_float y ;;
   width <- as_float width ;;
   height <- as_float height ;;
   let item := TransformableRectItem.init (QRectF.mk x y width height) in
   transform_data <- subscript rect_data "transform" ;;
   m11 <- subscript transform_data "m11" ;;
   m12 <- subscript transform_data "m12" ;;
   m13 <- subscript transform_data "m13" ;;
   m21 <- subscript transform_data "m21" ;;
   m22 <- subscript transform_data "m22" ;;
   m23 <- subscript transform_data "m23" ;;
   m31 <- subscript transform_data "m31" ;;
   m32 <- subscript transform_data "m32" ;;
   m33 <- subscript transform_data "m33" ;;
   m11 <- as_float m11 ;; m12 <- as_float m12 ;; m13 <- as_float m13 ;;
   m21 <- as_float m21 ;; m22 <- as_float m22 ;; m23 <- as_float m23 ;;
   m31 <- as_float m31 ;; m32 <- as_float m32 ;; m33 <- as_float m33 ;;
   let transform := QTransform.mk m11 m12 m13 m21 m22 m23 m31 m32 m33 in
   Some (TransformableRectItem.update_handles
           (TransformableRectItem.with_transform_mode mode
              (TransformableRectItem.setTransform transform item))))%string.

(** The loop over the records: the scene so far and whether the loop
    ran to its end. *)
Fixpoint load_loop (mode : TransformMode) (rects : list json)
    (s : QGraphicsScene.t) : QGraphicsScene.t * bool :=
  match rects with
  | [] => (s, true)
  | rect_data :: rest =>
      match load_item mode rect_data with
      | Some item => load_loop mode rest (QGraphicsScene.addItem item s)
      | None => (s, false)
      end
  end.

(** [load_rectangles]: the window afterwards and whether the error
    box was shown. *)
Definition load_rectangles (filename : string) (file : file_read) (w : t)
  : t * bool :=
  if String.eqb filename "" then (w, false)
  else
    match file with
    | OpenFails => (w, true)
    | DecodeFails => (w, true)
    | Parsed rects =>
        let cleared := QGraphicsScene.clear (scene w) in
        match py_iter rects with
        | None => (with_scene cleared w, true)
        | Some l =>
            let (s, finished) := load_loop (transform_mode w) l cleared in
            (with_scene s w, negb finished)
        end
    end.

End MainWindow.

(* ================================================================= *)
(** ** A host to run the editor on *)

(** [QLineF.angle()] on horizontal and vertical lines, where it is a
    whole number of degrees: counter-clockwise from the positive x axis,
    with y growing downwards; 0 elsewhere, as for a null line. *)
Definition axis_angle (p1 p2 : QPointF.t) : Q :=
  let dx := QPointF.x p2 - QPointF.x p1 in
  let dy := QPointF.y p2 - QPointF.y p1 in
  if Qeq_bool dy 0 then
    if QRectF.Qltb dx 0 then 180 else 0
  else if Qeq_bool dx 0 then
    if QRectF.Qltb dy 0 then 90 else 270
  else 0.

(** The items whose rectangle holds the point, last added first. *)
Fixpoint rects_at (qs : list QGraphicsRectItem.t) (i : nat) (p : QPointF.t)
  : list nat :=
  match qs with
  | [] => []
  | q :: tl =>
      let above := rects_at tl (S i) p in
      if QRectF.contains (QGraphicsRectItem.rect q) p then above ++ [i] else above
  end.

(** A host to run examples on: a click selects, a drag puts the item
    at the pointer, a release keeps the selection. *)
Definition exact_host : QtHost := {|
  QLineF_angle := axis_angle;
  press_selects := fun _ _ => true;
  drag_pos := fun ev _ => QGraphicsSceneMouseEvent.scenePos ev;
  release_selects := fun _ q => QGraphicsRectItem.isSelected q;
  scene_items_at := fun qs p => rects_at qs 0 p
|}.

Definition pt (a b : Q) : QPointF.t := QPointF.mk a b.

(** A pointer event of an item at one point. *)
Definition pointer_at (a b : Q) : QGraphicsSceneMouseEvent.t :=
  QGraphicsSceneMouseEvent.mk (pt a b) (pt a b).

(** A finished shape: built from [r], switched to [mode], with [h] as
    its active handle. *)
Definition shape (r : QRectF.t) (mode : TransformMode) (h : option HandleName)
  : TransformableRectItem.t :=
  TransformableRectItem.with_handle_selected h
    (TransformableRectItem.update_handles
       (TransformableRectItem.with_transform_mode mode
          (TransformableRectItem.init r))).

(** The base rectangle and the matrix of a shape: what is persisted. *)
Definition geometry (it : TransformableRectItem.t) : QRectF.t * QTransform.t :=
  (TransformableRectItem.rect it, TransformableRectItem.transform it).

(** The shape the loading loop builds from the record of [it]. *)
Definition reloaded (mode : TransformMode) (it : TransformableRectItem.t)
  : TransformableRectItem.t :=
  TransformableRectItem.update_handles
    (TransformableRectItem.with_transform_mode mode
       (TransformableRectItem.setTransform (TransformableRectItem.transform it)
          (TransformableRectItem.init (TransformableRectItem.rect it)))).

(* ================================================================= *)
(** ** Definitions used by the statements *)

(** A window holding the given shapes, idle, in translation mode. *)
Definition window_with (s : QGraphicsScene.t) : MainWindow.t :=
  MainWindow.mk s None false translation None.

(** The ["transform"] dict of the identity matrix. *)
Definition identity_dict : json :=
  JObj [("m11", JNum 1); ("m12", JNum 0); ("m13", JNum 0);
        ("m21", JNum 0); ("m22", JNum 1); ("m23", JNum 0);
        ("m31", JNum 0); ("m32", JNum 0); ("m33", JNum 1)]%string.

(** A record with every field but ["width"]. *)
Definition record_without_width : json :=
  JObj [("x", JNum 1); ("y", JNum 2); ("height", JNum 4);
        ("transform", identity_dict)]%string.

(** Two shapes to tell apart. *)
Definition shape_a : TransformableRectItem.t :=
  shape (QRectF.mk 0 0 100 50) translation None.
Definition shape_b : TransformableRectItem.t :=
  shape (QRectF.mk 10 10 20 20) translation None.

(** The base rectangle with corners (0,0), (100,0), (100,50), (0,50). *)
Definition rect_100_50 : QRectF.t := QRectF.mk 0 0 100 50.

(** The handle names of a mode, in the order of the handle list. *)
Definition mode_handle_names (m : TransformMode) : list HandleName :=
  match m with
  | translation => []
  | rotation => [rotate]
  | scaling | affine | perspective =>
      [top_left; top_right; bottom_left; bottom_right]
  end.

(** The point a handle sits on: its corner of the rectangle, and for
    the rotation handle the point 20 above the middle of the top edge. *)
Definition handle_anchor (h : HandleName) (r : QRectF.t) : QPointF.t :=
  match h with
  | top_left => QRectF.topLeft r
  | top_right => QRectF.topRight r
  | bottom_left => QRectF.bottomLeft r
  | bottom_right => QRectF.bottomRight r
  | rotate =>
      QPointF.mk
        ((QPointF.x (QRectF.topLeft r) + QPointF.x (QRectF.topRight r)) / 2)
        (QRectF.top r - 20)
  end.

(** [p] is within half of [s] of [c] in both coordinates. *)
Definition in_handle_square (s : Q) (c p : QPointF.t) : Prop :=
  QPointF.x c - s / 2 <= QPointF.x p <= QPointF.x c + s / 2 /\
  QPointF.y c - s / 2 <= QPointF.y p <= QPointF.y c + s / 2.

(** The cursor [hoverMoveEvent] shows over a handle. *)
Definition handle_cursor (h : HandleName) : CursorShape :=
  match h with
  | rotate => CrossCursor
  | _ => SizeFDiagCursor
  end.

(** The same function on the item a handler returns; an exception
    stays what it is. *)
Definition map_outcome {A B : Type} (f : A -> B) (o : outcome A) : outcome B :=
  match o with
  | Returned a => Returned (f a)
  | Raised e => Raised e
  end.

(** A Python number: an int or a float, or a bool. *)
Definition is_number (v : json) : Prop :=
  match v with
  | JNum _ | JBool _ => True
  | _ => False
  end.

(** The keys a record and its ["transform"] dict are read at. *)
Definition rect_keys : list string := ["x"; "y"; "width"; "height"]%string.
Definition matrix_keys : list string :=
  ["m11"; "m12"; "m13"; "m21"; "m22"; "m23"; "m31"; "m32"; "m33"]%string.

(** A numeric field of a dict. *)
Definition num_at (v : json) (k : string) : option Q :=
  bind (subscript v k) as_float.

(** The shape the loading loop builds from the numbers of a record. *)
Definition loaded_shape (mode : TransformMode) (r : QRectF.t) (m : QTransform.t)
  : TransformableRectItem.t :=
  TransformableRectItem.update_handles
    (TransformableRectItem.with_transform_mode mode
       (TransformableRectItem.setTransform m (TransformableRectItem.init r))).

(** A left-button event of the window at a scene point. *)
Definition left_click (p : QPointF.t) : QMouseEvent.t := QMouseEvent.mk p true.

(** The shape a finished drawing gesture from [a] to [b] leaves. *)
Definition drawn_shape (mode : TransformMode) (a b : QPointF.t)
  : TransformableRectItem.t :=
  let r := QRectF.normalized (QRectF.of_points a b) in
  let it :=
    TransformableRectItem.setSelected true
      (TransformableRectItem.update_handles
         (TransformableRectItem.setRect r
            (TransformableRectItem.with_transform_mode mode
               (TransformableRectItem.init (QRectF.of_points a a))))) in
  TransformableRectItem.with_original r (TransformableRectItem.corners_of r) it.

(** A whole drawing gesture: the left button pressed at [a], the
    pointer moved to [b], the button released there. *)
Definition draw_gesture {host : QtHost} (a b : QPointF.t) (w : MainWindow.t)
  : MainWindow.t :=
  MainWindow.mouseReleaseEvent (left_click b)
    (MainWindow.mouseMoveEvent (left_click b)
       (MainWindow.mousePressEvent (left_click a) w)).

(** What a mode switch does to one shape: the mode and the handle list
    are replaced, every other part of the shape is kept. *)
Definition mode_switched (mode : TransformMode)
    (it it' : TransformableRectItem.t) : Prop :=
  TransformableRectItem.qitem it' = TransformableRectItem.qitem it /\
  TransformableRectItem.handle_size it' = TransformableRectItem.handle_size it /\
  TransformableRectItem.handle_selected it' = TransformableRectItem.handle_selected it /\
  TransformableRectItem.original_rect it' = TransformableRectItem.original_rect it /\
  TransformableRectItem.original_corners it' = TransformableRectItem.original_corners it /\
  TransformableRectItem.transform_mode it' = mode /\
  TransformableRectItem.handles it'
  = TransformableRectItem.handles
      (TransformableRectItem.update_handles
         (TransformableRectItem.with_transform_mode mode it)).

(* ================================================================= *)
(** ** Persistence *)

Lemma items_addItem (it : TransformableRectItem.t) (s : QGraphicsScene.t) :
  QGraphicsScene.items (QGraphicsScene.addItem it s) = it :: QGraphicsScene.items s.
Proof.
  unfold QGraphicsScene.items, QGraphicsScene.addItem.
  now rewrite rev_app_distr.
Qed.

Lemma load_item_record_of (mode : TransformMode) (it : TransformableRectItem.t) :
  MainWindow.load_item mode (MainWindow.record_of it) = Some (reloaded mode it).
Proof.
  destruct it as [[[rx ry rw rh] p a m o sel] hsz hs hsel md orr oc].
  destruct m; reflexivity.
Qed.

Lemma geometry_reloaded (mode : TransformMode) (it : TransformableRectItem.t) :
  geometry (reloaded mode it) = geometry it.
Proof. reflexivity. Qed.

(** A loop that runs to its end has appended one shape per record. *)
Lemma load_loop_finished (mode : TransformMode) (rects : list json) :
  forall s s',
    MainWindow.load_loop mode rects s = (s', true) ->
    exists added,
      s' = s ++ added /\
      List.map (MainWindow.load_item mode) rects = List.map Some added.
Proof.
  induction rects as [|rd rest IH]; intros s s' Hrun; simpl in Hrun.
  - exists []. inversion Hrun. now rewrite app_nil_r.
  - destruct (MainWindow.load_item mode rd) as [item|] eqn:Hitem; [|discriminate].
    destruct (IH _ _ Hrun) as (added & -> & Hmap).
    exists (item :: added). unfold QGraphicsScene.addItem.
    rewrite <- app_assoc. simpl. now rewrite Hitem, Hmap.
Qed.

(** A loop that stops early has appended the shapes of the records in
    front of the one that raised, and nothing else. *)
Lemma load_loop_stopped (mode : TransformMode) (rects : list json) :
  forall s s',
    MainWindow.load_loop mode rects s = (s', false) ->
    exists pre bad post added,
      rects = pre ++ bad :: post /\
      MainWindow.load_item mode bad = None /\
      List.map (MainWindow.load_item mode) pre = List.map Some added /\
      s' = s ++ added.
Proof.
  induction rects as [|rd rest IH]; intros s s' Hrun; simpl in Hrun.
  - discriminate.
  - destruct (MainWindow.load_item mode rd) as [item|] eqn:Hitem.
    + destruct (IH _ _ Hrun) as (pre & bad & post & added & -> & Hbad & Hmap & ->).
      exists (rd :: pre), bad, post, (item :: added).
      unfold QGraphicsScene.addItem. rewrite <- app_assoc. simpl.
      now rewrite Hitem, Hmap.
    + inversion Hrun; subst. exists [], rd, rest, [].
      now rewrite app_nil_r.
Qed.

Lemma load_loop_records (mode : TransformMode) (l : list TransformableRectItem.t) :
  forall s,
    MainWindow.load_loop mode (List.map MainWindow.record_of l) s
    = (s ++ List.map (reloaded mode) l, true).
Proof.
  induction l as [|it l IH]; intros s; cbn [List.map MainWindow.load_loop].
  - now rewrite app_nil_r.
  - rewrite load_item_record_of, IH. cbn [List.map]. unfold QGraphicsScene.addItem.
    now rewrite <- app_assoc.
Qed.

(** C1, as stated, fails: a document whose only record has no ["width"]
    makes the load fail, and the shape that was in the collection is
    gone afterwards. *)
Lemma load_missing_width_empties_collection :
  let w := window_with [shape_a] in
  let doc := JArr [record_without_width] in
  MainWindow.load_rectangles "shapes.json" (Parsed doc) w
  = (window_with [], true)
  /\ MainWindow.scene (fst (MainWindow.load_rectangles "shapes.json" (Parsed doc) w))
     <> MainWindow.scene w.
Proof.
  split; [reflexivity | discriminate].
Qed.

(** C1 (amended): a load that fails while the file is opened or decoded
    leaves the window, and so the shape collection, exactly as it was.
    A load that fails after the document was decoded has cleared the
    collection first: when the document cannot be iterated the
    collection is empty, and when a record raises the collection holds
    the shapes built from the records in front of it, one per record
    and in their order; the rest of the window is unchanged. *)
Theorem load_failure_collection
    (filename : string) (file : file_read) (w w' : MainWindow.t) :
  MainWindow.load_rectangles filename file w = (w', true) ->
  match file with
  | OpenFails | DecodeFails => w' = w
  | Parsed rects =>
      w' = MainWindow.with_scene (MainWindow.scene w') w /\
      match py_iter rects with
      | None => MainWindow.scene w' = []
      | Some l =>
          exists pre bad post,
            l = pre ++ bad :: post /\
            MainWindow.load_item (MainWindow.transform_mode w) bad = None /\
            List.map (MainWindow.load_item (MainWindow.transform_mode w)) pre
            = List.map Some (MainWindow.scene w')
      end
  end.
Proof.
  unfold MainWindow.load_rectangles.
  destruct (String.eqb filename "") eqn:Hname; [discriminate|].
  destruct file as [| |rects]; intros Hload.
  - now inversion Hload.
  - now inversion Hload.
  - destruct (py_iter rects) as [l|].
    + destruct (MainWindow.load_loop (MainWindow.transform_mode w) l
                  (QGraphicsScene.clear (MainWindow.scene w)))
        as [s finished] eqn:Hloop.
      inversion Hload as [[Hw Hfin]]. destruct finished; [discriminate|].
      split; [reflexivity|]. cbn [MainWindow.scene MainWindow.with_scene].
      destruct (load_loop_stopped _ _ _ _ Hloop)
        as (pre & bad & post & added & Hl & Hbad & Hmap & Hs).
      exists pre, bad, post. subst s. now rewrite Hmap.
    + inversion Hload. split; reflexivity.
Qed.

Lemma load_failure_collection_witness :
  let w := window_with [shape_a] in
  MainWindow.load_rectangles "shapes.json" DecodeFails w = (w, true) /\ w = w.
Proof.
  split; [reflexivity|].
  exact (load_failure_collection "shapes.json" DecodeFails
           (window_with [shape_a]) (window_with [shape_a]) eq_refl).
Defined.

(** C2, as stated, fails: with two shapes the first array entry of the
    saved document is the record of the shape created last. *)
Lemma save_first_entry_is_last_created :
  let w :=
    window_with (QGraphicsScene.addItem shape_b (QGraphicsScene.addItem shape_a [])) in
  MainWindow.save_rectangles "shapes.json" w
  = Some (JArr [MainWindow.record_of shape_b; MainWindow.record_of shape_a])
  /\ MainWindow.record_of shape_b <> MainWindow.record_of shape_a.
Proof.
  split; [reflexivity | discriminate].
Qed.

(** C2 (amended): save emits the records in the order of
    [scene.items()], top-most shape first, which is the reverse of the
    order in which the shapes were added: the shape added last is the
    first array entry. *)
Theorem save_emits_reverse_insertion_order (filename : string) (w : MainWindow.t) :
  filename <> ""%string ->
  MainWindow.save_rectangles filename w
  = Some (JArr (rev (List.map MainWindow.record_of (MainWindow.scene w))))
  /\ forall it,
       MainWindow.saved_rects
         (MainWindow.with_scene (QGraphicsScene.addItem it (MainWindow.scene w)) w)
       = MainWindow.record_of it :: MainWindow.saved_rects w.
Proof.
  intros Hname. split.
  - unfold MainWindow.save_rectangles.
    destruct (String.eqb_spec filename ""); [contradiction|].
    unfold MainWindow.saved_rects, QGraphicsScene.items.
    now rewrite map_rev.
  - intros it. unfold MainWindow.saved_rects.
    cbn [MainWindow.scene MainWindow.with_scene].
    now rewrite items_addItem.
Qed.

Lemma save_emits_reverse_insertion_order_witness :
  MainWindow.save_rectangles "shapes.json" (window_with [shape_a; shape_b])
  = Some (JArr [MainWindow.record_of shape_b; MainWindow.record_of shape_a]).
Proof.
  refine (proj1 (save_emits_reverse_insertion_order "shapes.json"
                   (window_with [shape_a; shape_b]) _)).
  discriminate.
Defined.

(** C3: loading the document that save produced for a collection S
    succeeds and yields a collection with one shape per shape of S,
    each with the same base rectangle (x, y, width, height) and the
    same nine matrix entries; the shapes come back in the order of the
    document, which is S reversed. *)
Theorem save_load_roundtrip
    (filename : string) (w w0 : MainWindow.t) (doc : json) :
  MainWindow.save_rectangles filename w = Some doc ->
  exists w',
    MainWindow.load_rectangles filename (Parsed doc) w0 = (w', false) /\
    List.map geometry (MainWindow.scene w')
    = rev (List.map geometry (MainWindow.scene w)) /\
    Permutation (List.map geometry (MainWindow.scene w'))
                (List.map geometry (MainWindow.scene w)).
Proof.
  unfold MainWindow.save_rectangles, MainWindow.load_rectangles.
  destruct (String.eqb filename ""); [discriminate|].
  intros Hdoc. inversion Hdoc as [Hd]. clear Hdoc Hd.
  cbn [py_iter]. unfold MainWindow.saved_rects.
  rewrite load_loop_records. cbn [QGraphicsScene.clear app negb].
  eexists. split; [reflexivity|].
  cbn [MainWindow.scene MainWindow.with_scene].
  assert (Hgeo : List.map geometry
                   (List.map (reloaded (MainWindow.transform_mode w0))
                      (QGraphicsScene.items (MainWindow.scene w)))
                 = rev (List.map geometry (MainWindow.scene w))).
  { rewrite map_map. unfold QGraphicsScene.items. rewrite <- map_rev.
    apply map_ext. intros it. apply geometry_reloaded. }
  split; [exact Hgeo|].
  rewrite Hgeo. apply Permutation_sym, Permutation_rev.
Qed.

Lemma save_load_roundtrip_witness :
  exists w',
    MainWindow.load_rectangles "shapes.json"
      (Parsed (JArr [MainWindow.record_of shape_b; MainWindow.record_of shape_a]))
      (window_with []) = (w', false) /\
    List.map geometry (MainWindow.scene w')
    = rev (List.map geometry [shape_a; shape_b]) /\
    Permutation (List.map geometry (MainWindow.scene w'))
                (List.map geometry [shape_a; shape_b]).
Proof.
  exact (save_load_roundtrip "shapes.json" (window_with [shape_a; shape_b])
           (window_with []) _ eq_refl).
Defined.

(* ================================================================= *)
(** ** Handle drags *)

Lemma mode_in_affine_perspective (m : TransformMode) :
  m = affine \/ m = perspective ->
  mode_eqb m scaling = false /\ mode_eqb m rotation = false /\
  mode_in m [affine; perspective] = true.
Proof. intros [-> | ->]; repeat split; reflexivity. Qed.

(** *** The frozen corners *)

Lemma frozen_ok_init (r : QRectF.t) :
  TransformableRectItem.frozen_ok (TransformableRectItem.init r).
Proof. reflexivity. Qed.

Lemma frozen_ok_shape (r : QRectF.t) (mode : TransformMode) (h : option HandleName) :
  TransformableRectItem.frozen_ok (shape r mode h).
Proof. reflexivity. Qed.

Lemma frozen_ok_mode_switch (mode : TransformMode) (it : TransformableRectItem.t) :
  TransformableRectItem.frozen_ok it ->
  TransformableRectItem.frozen_ok
    (TransformableRectItem.update_handles
       (TransformableRectItem.with_transform_mode mode it)).
Proof. intros H. exact H. Qed.

Lemma frozen_ok_press {host : QtHost} (ev : QGraphicsSceneMouseEvent.t)
    (it : TransformableRectItem.t) :
  TransformableRectItem.frozen_ok it ->
  TransformableRectItem.frozen_ok (TransformableRectItem.mousePressEvent ev it).
Proof.
  unfold TransformableRectItem.frozen_ok, TransformableRectItem.mousePressEvent.
  now destruct (TransformableRectItem.isSelected it).
Qed.

(** What a move gives when it returns: the resized, the rotated or the
    repositioned item. *)
Lemma move_returned {host : QtHost} (ev : QGraphicsSceneMouseEvent.t)
    (it it' : TransformableRectItem.t) :
  TransformableRectItem.mouseMoveEvent ev it = Returned it' ->
  it' = TransformableRectItem.resize_item (QGraphicsSceneMouseEvent.pos ev) it \/
  it' = TransformableRectItem.rotate_item (QGraphicsSceneMouseEvent.pos ev) it \/
  it' = TransformableRectItem.super_mouseMoveEvent ev it \/
  it' = it.
Proof.
  unfold TransformableRectItem.mouseMoveEvent.
  destruct (TransformableRectItem.handle_selected it) as [h|] eqn:Hsel.
  - destruct (mode_eqb _ scaling); [intros H; inversion H; auto|].
    destruct (mode_eqb _ rotation); [intros H; inversion H; auto|].
    destruct (mode_in _ _); [|intros H; inversion H; auto].
    unfold TransformableRectItem.affine_transform_item. rewrite Hsel.
    destruct (TransformableRectItem.index_map h).
    + destruct (list_assign _ _ _); discriminate.
    + intros H; inversion H; auto.
  - intros H; inversion H; auto.
Qed.

(** No move touches the frozen corners: they stay fixed for the whole
    gesture. *)
Lemma move_keeps_frozen_corners {host : QtHost} (ev : QGraphicsSceneMouseEvent.t)
    (it it' : TransformableRectItem.t) :
  TransformableRectItem.mouseMoveEvent ev it = Returned it' ->
  TransformableRectItem.original_corners it'
  = TransformableRectItem.original_corners it /\
  TransformableRectItem.original_rect it'
  = TransformableRectItem.original_rect it.
Proof.
  intros Hmove.
  destruct (move_returned ev it it' Hmove) as [-> | [-> | [-> | ->]]];
    split; reflexivity.
Qed.

Lemma frozen_ok_release {host : QtHost} (ev : QGraphicsSceneMouseEvent.t)
    (it : TransformableRectItem.t) :
  TransformableRectItem.frozen_ok (TransformableRectItem.mouseReleaseEvent ev it).
Proof. reflexivity. Qed.

Lemma frozen_ok_load_item (mode : TransformMode) (rect_data : json)
    (it : TransformableRectItem.t) :
  MainWindow.load_item mode rect_data = Some it ->
  TransformableRectItem.frozen_ok it.
Proof.
  unfold MainWindow.load_item, bind.
  repeat match goal with
         | |- context [match ?o with Some _ => _ | None => None end] =>
             destruct o; [|discriminate]
         end.
  intros H. inversion H. reflexivity.
Qed.

(** *** The call of the solver *)

(** What a move does in affine or perspective mode while a handle is
    active. *)
Lemma affine_move_unfold {host : QtHost}
    (ev : QGraphicsSceneMouseEvent.t) (it : TransformableRectItem.t)
    (h : HandleName) :
  TransformableRectItem.transform_mode it = affine \/
  TransformableRectItem.transform_mode it = perspective ->
  TransformableRectItem.handle_selected it = Some h ->
  TransformableRectItem.mouseMoveEvent ev it
  = TransformableRectItem.affine_transform_item (QGraphicsSceneMouseEvent.pos ev) it.
Proof.
  intros Hmode Hsel. unfold TransformableRectItem.mouseMoveEvent.
  rewrite Hsel.
  destruct (mode_in_affine_perspective _ Hmode) as (-> & -> & ->).
  reflexivity.
Qed.

(** With a corner handle active and the four frozen corners in place,
    the assignment into the corner list succeeds and the call of the
    solver raises. *)
Lemma corner_drag_raises {host : QtHost}
    (ev : QGraphicsSceneMouseEvent.t) (it : TransformableRectItem.t)
    (h : HandleName) :
  TransformableRectItem.transform_mode it = affine \/
  TransformableRectItem.transform_mode it = perspective ->
  TransformableRectItem.handle_selected it = Some h ->
  h <> rotate ->
  TransformableRectItem.frozen_ok it ->
  TransformableRectItem.mouseMoveEvent ev it = Raised TypeError.
Proof.
  intros Hmode Hsel Hcorner Hfrozen.
  rewrite (affine_move_unfold ev it h Hmode Hsel).
  unfold TransformableRectItem.affine_transform_item. rewrite Hsel, Hfrozen.
  destruct h; try contradiction; reflexivity.
Qed.

(** C4 at a failing input: the shape with frozen corners (0,0),
    (100,0), (100,50), (0,50) and the identity as transform, in affine
    mode with top_left active, the pointer moved to (-20,-10).  The
    handler calls the solver with two arguments, the call raises
    TypeError and the handler does not return: no transform is
    derived, the transform of the shape stays the identity and (0,0)
    is not taken to (-20,-10).  The same happens in perspective
    mode. *)
Theorem affine_drag_sets_no_transform (host : QtHost) :
  let it := shape rect_100_50 affine (Some top_left) in
  TransformableRectItem.original_corners it
  = [pt 0 0; pt 100 0; pt 100 50; pt 0 50] /\
  TransformableRectItem.transform it = QTransform.identity /\
  TransformableRectItem.mouseMoveEvent (pointer_at (-20) (-10)) it
  = Raised TypeError /\
  TransformableRectItem.mouseMoveEvent (pointer_at (-20) (-10))
    (shape rect_100_50 perspective (Some top_left))
  = Raised TypeError.
Proof.
  split; [vm_compute; reflexivity|]. split; [reflexivity|]. split.
  - apply (corner_drag_raises _ _ top_left);
      [left; reflexivity | reflexivity | discriminate | reflexivity].
  - apply (corner_drag_raises _ _ top_left);
      [right; reflexivity | reflexivity | discriminate | reflexivity].
Qed.

(** C5 at a failing input: the shape with base rectangle (0,0,100,50)
    in affine mode with top_right active, the pointer moved to
    (200,50), on the line of the bottom edge, so that three of the
    four target points are collinear.  The handler does not leave the
    drag step silently: the call of the solver raises TypeError.  So
    does the drag of top_left to (100,25), on the line of the right
    edge. *)
Theorem degenerate_drag_raises (host : QtHost) :
  QPointF.y (pt 200 50) == QPointF.y (QRectF.bottomRight rect_100_50) /\
  QPointF.y (pt 200 50) == QPointF.y (QRectF.bottomLeft rect_100_50) /\
  TransformableRectItem.mouseMoveEvent (pointer_at 200 50)
    (shape rect_100_50 affine (Some top_right))
  = Raised TypeError /\
  QPointF.x (pt 100 25) == QPointF.x (QRectF.topRight rect_100_50) /\
  QPointF.x (pt 100 25) == QPointF.x (QRectF.bottomRight rect_100_50) /\
  TransformableRectItem.mouseMoveEvent (pointer_at 100 25)
    (shape rect_100_50 affine (Some top_left))
  = Raised TypeError.
Proof.
  split; [vm_compute; reflexivity|]. split; [vm_compute; reflexivity|].
  split.
  { apply (corner_drag_raises _ _ top_right);
      [left; reflexivity | reflexivity | discriminate | reflexivity]. }
  split; [vm_compute; reflexivity|]. split; [vm_compute; reflexivity|].
  apply (corner_drag_raises _ _ top_left);
    [left; reflexivity | reflexivity | discriminate | reflexivity].
Qed.

(* ================================================================= *)
(** ** The size of the base rectangle *)

Lemma Qltb_true (a b : Q) : QRectF.Qltb a b = true -> a < b.
Proof.
  unfold QRectF.Qltb. intros H. apply negb_true_iff in H.
  destruct (Qlt_le_dec a b) as [Hlt|Hle]; [exact Hlt|].
  apply Qle_bool_iff in Hle. congruence.
Qed.

Lemma Qltb_false (a b : Q) : QRectF.Qltb a b = false -> b <= a.
Proof.
  unfold QRectF.Qltb. intros H. apply negb_false_iff in H.
  now apply Qle_bool_iff.
Qed.

(** [normalized()] gives a rectangle of non-negative size. *)
Lemma normalized_nonneg (r : QRectF.t) :
  0 <= QRectF.width (QRectF.normalized r) /\
  0 <= QRectF.height (QRectF.normalized r).
Proof.
  unfold QRectF.normalized.
  destruct (QRectF.Qltb (QRectF.width r) 0) eqn:Hw;
    cbn [QRectF.height QRectF.width];
    destruct (QRectF.Qltb (QRectF.height r) 0) eqn:Hh;
    cbn [QRectF.height QRectF.width];
    try apply Qltb_true in Hw; try apply Qltb_true in Hh;
    try apply Qltb_false in Hw; try apply Qltb_false in Hh;
    split; lra.
Qed.

Lemma update_at_nth (s : QGraphicsScene.t) (i : nat)
    (f : TransformableRectItem.t -> TransformableRectItem.t) :
  forall j,
    nth_error (MainWindow.update_at s i f) j
    = if Nat.eqb j i then option_map f (nth_error s j) else nth_error s j.
Proof.
  revert i. induction s as [|it s IH]; intros i j.
  - destruct j, i; simpl; try reflexivity; now destruct (Nat.eqb j i).
  - destruct i, j; simpl; try reflexivity. apply IH.
Qed.

(** The drawing gesture keeps the rectangle it draws normalised: the
    pressed shape has size zero and every move gives the rectangle
    under construction a non-negative size. *)
Lemma draw_gesture_nonneg {host : QtHost} (ev : QMouseEvent.t) (w : MainWindow.t)
    (i : nat) (it : TransformableRectItem.t) :
  MainWindow.drawing w = true ->
  MainWindow.current_rect w = Some i ->
  MainWindow.start_pos w <> None ->
  nth_error (MainWindow.scene (MainWindow.mouseMoveEvent ev w)) i = Some it ->
  0 <= QRectF.width (TransformableRectItem.rect it) /\
  0 <= QRectF.height (TransformableRectItem.rect it).
Proof.
  intros Hd Hc Hs. unfold MainWindow.mouseMoveEvent. rewrite Hd, Hc.
  destruct (MainWindow.start_pos w) as [start|]; [|contradiction].
  cbn [MainWindow.scene MainWindow.with_scene].
  rewrite update_at_nth, Nat.eqb_refl.
  destruct (nth_error (MainWindow.scene w) i); simpl; [|discriminate].
  intros Hit. inversion Hit. apply normalized_nonneg.
Qed.

(** C6 at a failing input: a shape with base rectangle (0,0,100,50) in
    scaling mode, top_left handle active, pointer moved to (150,80),
    beyond the bottom-right corner.  The handler keeps the far corner
    and does not normalise: the base rectangle becomes (150,80,-50,-30),
    of negative width and height. *)
Theorem scaling_drag_negative_size (host : QtHost) :
  let it := shape rect_100_50 scaling (Some top_left) in
  exists it',
    TransformableRectItem.mouseMoveEvent (pointer_at 150 80) it = Returned it' /\
    QRectF.eqv (TransformableRectItem.rect it') (QRectF.mk 150 80 (-50) (-30)) /\
    QRectF.width (TransformableRectItem.rect it') < 0 /\
    QRectF.height (TransformableRectItem.rect it') < 0.
Proof.
  eexists. split; [reflexivity|].
  repeat split; vm_compute; reflexivity.
Qed.

(* ================================================================= *)
(** ** Rotation *)

(** C7, as stated, fails: on a shape with base rectangle (0,0,100,50)
    and the identity as transform, a rotation drag to the point straight
    above the centre sets the rotation property to -90, yet the 3x3
    transform is still the identity, and the pivot of the rotation
    property is the item's origin (0,0), not the centre (50,25). *)
Lemma rotation_drag_keeps_matrix :
  let it := shape rect_100_50 rotation (Some rotate) in
  exists it',
    @TransformableRectItem.mouseMoveEvent exact_host (pointer_at 50 (-20)) it
    = Returned it' /\
    TransformableRectItem.rotation_property it' == - (90) /\
    ~ TransformableRectItem.rotation_property it'
      == TransformableRectItem.rotation_property it /\
    TransformableRectItem.transform it' = TransformableRectItem.transform it /\
    TransformableRectItem.transform it' = QTransform.identity /\
    QGraphicsRectItem.transformOriginPoint (TransformableRectItem.qitem it') = pt 0 0 /\
    QPointF.eqv (QRectF.center (TransformableRectItem.rect it')) (pt 50 25).
Proof.
  eexists. split; [reflexivity|].
  repeat split; try (vm_compute; reflexivity).
  vm_compute. discriminate.
Qed.

(** C7 (amended): in rotation mode, with a handle active, a move sets
    the shape's rotation property to the negation of the angle of the
    line from the centre of the base rectangle to the pointer position,
    and changes nothing else: the 3x3 transform, the base rectangle,
    the position and the transform origin point stay as they were. *)
Theorem rotation_drag_sets_rotation_property
    (host : QtHost) (ev : QGraphicsSceneMouseEvent.t)
    (it : TransformableRectItem.t) (h : HandleName) :
  TransformableRectItem.transform_mode it = rotation ->
  TransformableRectItem.handle_selected it = Some h ->
  let angle :=
    QLineF_angle (QRectF.center (TransformableRectItem.rect it))
                 (QGraphicsSceneMouseEvent.pos ev) in
  let it' := TransformableRectItem.setRotation (- angle) it in
  TransformableRectItem.mouseMoveEvent ev it = Returned it' /\
  TransformableRectItem.rotation_property it' = - angle /\
  TransformableRectItem.transform it' = TransformableRectItem.transform it /\
  TransformableRectItem.rect it' = TransformableRectItem.rect it /\
  TransformableRectItem.pos it' = TransformableRectItem.pos it /\
  QGraphicsRectItem.transformOriginPoint (TransformableRectItem.qitem it')
  = QGraphicsRectItem.transformOriginPoint (TransformableRectItem.qitem it).
Proof.
  intros Hmode Hsel angle it'. split.
  - unfold TransformableRectItem.mouseMoveEvent.
    rewrite Hsel, Hmode. reflexivity.
  - repeat split.
Qed.

Lemma rotation_drag_sets_rotation_property_witness :
  let it := shape rect_100_50 rotation (Some rotate) in
  @TransformableRectItem.mouseMoveEvent exact_host (pointer_at 50 (-20)) it
  = Returned
      (TransformableRectItem.setRotation
         (- axis_angle (pt (0 + 100 / 2) (0 + 50 / 2)) (pt 50 (-20))) it).
Proof.
  exact (proj1 (rotation_drag_sets_rotation_property exact_host (pointer_at 50 (-20))
                  (shape rect_100_50 rotation (Some rotate)) rotate eq_refl eq_refl)).
Defined.

(* ================================================================= *)
(** ** Modes *)

(** C8 at a failing input: the shape with base rectangle (0,0,100,50),
    top_left active, the pointer moved to (-20,-10), once in affine
    and once in perspective mode.  In both modes the call of the
    solver raises TypeError: neither mode derives a transform, by a
    projective solve or otherwise.  Apart from that the two modes do
    behave alike: the handle layout is the same and every handler
    ends the same way for both, up to the cached mode. *)
Theorem affine_and_perspective_derive_no_transform
    (host : QtHost) (ev : QGraphicsSceneMouseEvent.t)
    (it : TransformableRectItem.t) :
  TransformableRectItem.mouseMoveEvent (pointer_at (-20) (-10))
    (shape rect_100_50 affine (Some top_left))
  = Raised TypeError /\
  TransformableRectItem.mouseMoveEvent (pointer_at (-20) (-10))
    (shape rect_100_50 perspective (Some top_left))
  = Raised TypeError /\
  let a := TransformableRectItem.with_transform_mode affine it in
  let p := TransformableRectItem.with_transform_mode perspective it in
  TransformableRectItem.handles (TransformableRectItem.update_handles p)
  = TransformableRectItem.handles (TransformableRectItem.update_handles a) /\
  TransformableRectItem.mousePressEvent ev p
  = TransformableRectItem.with_transform_mode perspective
      (TransformableRectItem.mousePressEvent ev a) /\
  TransformableRectItem.mouseMoveEvent ev p
  = map_outcome (TransformableRectItem.with_transform_mode perspective)
      (TransformableRectItem.mouseMoveEvent ev a) /\
  TransformableRectItem.mouseReleaseEvent ev p
  = TransformableRectItem.with_transform_mode perspective
      (TransformableRectItem.mouseReleaseEvent ev a).
Proof.
  split.
  { apply (corner_drag_raises _ _ top_left);
      [left; reflexivity | reflexivity | discriminate | reflexivity]. }
  split.
  { apply (corner_drag_raises _ _ top_left);
      [right; reflexivity | reflexivity | discriminate | reflexivity]. }
  destruct it as [q hsz hs hsel md orr oc].
  cbv zeta. split; [reflexivity|]. split.
  - unfold TransformableRectItem.mousePressEvent, TransformableRectItem.isSelected.
    cbn. now destruct (QGraphicsRectItem.isSelected q).
  - split; [|reflexivity].
    unfold TransformableRectItem.mouseMoveEvent. cbn.
    destruct hsel as [h|]; [|reflexivity].
    unfold TransformableRectItem.affine_transform_item. cbn.
    destruct (TransformableRectItem.index_map h) as [i|]; [|reflexivity].
    destruct (list_assign oc i (QGraphicsSceneMouseEvent.pos ev)); reflexivity.
Qed.

Lemma set_transform_mode_rects (mode : TransformMode) (w : MainWindow.t) :
  List.map TransformableRectItem.rect
    (MainWindow.scene (MainWindow.set_transform_mode mode w))
  = List.map TransformableRectItem.rect (MainWindow.scene w).
Proof.
  cbn [MainWindow.scene MainWindow.set_transform_mode].
  rewrite map_map. apply map_ext. reflexivity.
Qed.

(** C9: [set_transform_mode] sets the window's mode and, for every
    shape of the collection, selected or not, the cached mode and the
    handle list, recomputed for the new mode; everything else in the
    window and in each shape is kept, the base rectangle in particular.
    Switching to rotation and then to scaling leaves every base
    rectangle as it was. *)
Theorem set_transform_mode_frame (mode : TransformMode) (w : MainWindow.t) :
  let w' := MainWindow.set_transform_mode mode w in
  MainWindow.transform_mode w' = mode /\
  MainWindow.current_rect w' = MainWindow.current_rect w /\
  MainWindow.drawing w' = MainWindow.drawing w /\
  MainWindow.start_pos w' = MainWindow.start_pos w /\
  Forall2 (mode_switched mode) (MainWindow.scene w) (MainWindow.scene w') /\
  List.map TransformableRectItem.rect (MainWindow.scene w')
  = List.map TransformableRectItem.rect (MainWindow.scene w) /\
  List.map TransformableRectItem.rect
    (MainWindow.scene
       (MainWindow.set_transform_mode scaling
          (MainWindow.set_transform_mode rotation w)))
  = List.map TransformableRectItem.rect (MainWindow.scene w).
Proof.
  cbv zeta. repeat split.
  - cbn [MainWindow.scene MainWindow.set_transform_mode].
    induction (MainWindow.scene w) as [|it s IH]; constructor.
    + repeat split.
    + exact IH.
  - apply set_transform_mode_rects.
  - now rewrite 2 set_transform_mode_rects.
Qed.

(* ================================================================= *)
(** ** What the document depends on *)

(** C10: the record of a shape is determined by its base rectangle and
    its 3x3 transform, so shapes that agree on these two have the same
    record whatever their position and rotation property are; a move in
    translation mode (which changes the position only) and a rotation
    drag (which changes the rotation property only) leave the record as
    it was. *)
Theorem record_ignores_position_and_rotation (host : QtHost) :
  (forall it1 it2 : TransformableRectItem.t,
      TransformableRectItem.rect it1 = TransformableRectItem.rect it2 ->
      TransformableRectItem.transform it1 = TransformableRectItem.transform it2 ->
      MainWindow.record_of it1 = MainWindow.record_of it2) /\
  (forall (ev : QGraphicsSceneMouseEvent.t) (it : TransformableRectItem.t),
      TransformableRectItem.transform_mode it = translation ->
      exists it',
        TransformableRectItem.mouseMoveEvent ev it = Returned it' /\
        MainWindow.record_of it' = MainWindow.record_of it) /\
  (forall (ev : QGraphicsSceneMouseEvent.t) (it : TransformableRectItem.t)
          (h : HandleName),
      TransformableRectItem.transform_mode it = rotation ->
      TransformableRectItem.handle_selected it = Some h ->
      exists it',
        TransformableRectItem.mouseMoveEvent ev it = Returned it' /\
        MainWindow.record_of it' = MainWindow.record_of it).
Proof.
  assert (Hrec : forall it1 it2 : TransformableRectItem.t,
             TransformableRectItem.rect it1 = TransformableRectItem.rect it2 ->
             TransformableRectItem.transform it1 = TransformableRectItem.transform it2 ->
             MainWindow.record_of it1 = MainWindow.record_of it2).
  { intros it1 it2 Hr Hm. unfold MainWindow.record_of. now rewrite Hr, Hm. }
  split; [exact Hrec|]. split.
  - intros ev it Hmode.
    exists (TransformableRectItem.super_mouseMoveEvent ev it). split.
    + unfold TransformableRectItem.mouseMoveEvent. rewrite Hmode.
      now destruct (TransformableRectItem.handle_selected it).
    + apply Hrec; reflexivity.
  - intros ev it h Hmode Hsel.
    exists (TransformableRectItem.rotate_item (QGraphicsSceneMouseEvent.pos ev) it).
    split.
    + unfold TransformableRectItem.mouseMoveEvent. rewrite Hsel, Hmode.
      reflexivity.
    + apply Hrec; reflexivity.
Qed.

(** A shape dragged to a new position and then rotated: the position
    and the rotation property have changed, the record has not. *)
Lemma record_ignores_position_and_rotation_witness :
  let it := shape rect_100_50 translation None in
  let ev := QGraphicsSceneMouseEvent.mk (pt 10 10) (pt 300 200) in
  (exists moved,
      @TransformableRectItem.mouseMoveEvent exact_host ev it = Returned moved /\
      MainWindow.record_of moved = MainWindow.record_of it) /\
  (exists turned,
      @TransformableRectItem.mouseMoveEvent exact_host (pointer_at 50 (-20))
        (shape rect_100_50 rotation (Some rotate)) = Returned turned /\
      MainWindow.record_of turned
      = MainWindow.record_of (shape rect_100_50 rotation (Some rotate))) /\
  TransformableRectItem.pos
    (@TransformableRectItem.super_mouseMoveEvent exact_host ev it) = pt 300 200 /\
  TransformableRectItem.pos it = pt 0 0.
Proof.
  split.
  { exact (proj1 (proj2 (record_ignores_position_and_rotation exact_host))
             (QGraphicsSceneMouseEvent.mk (pt 10 10) (pt 300 200))
             (shape rect_100_50 translation None) eq_refl). }
  split.
  { exact (proj2 (proj2 (record_ignores_position_and_rotation exact_host))
             (pointer_at 50 (-20))
             (shape rect_100_50 rotation (Some rotate)) rotate eq_refl eq_refl). }
  split; reflexivity.
Defined.

(* ================================================================= *)
(** ** Handles: layout and hit test *)

Lemma Qltb_iff (a b : Q) : QRectF.Qltb a b = true <-> a < b.
Proof.
  split; [apply Qltb_true|].
  intros Hlt. destruct (QRectF.Qltb a b) eqn:E; [reflexivity|].
  apply Qltb_false in E. lra.
Qed.

Lemma Qltb_false_iff (a b : Q) : QRectF.Qltb a b = false <-> b <= a.
Proof.
  split; [apply Qltb_false|].
  intros Hle. destruct (QRectF.Qltb a b) eqn:E; [|reflexivity].
  apply Qltb_true in E. lra.
Qed.

Lemma Qeq_bool_false (a b : Q) : ~ a == b -> Qeq_bool a b = false.
Proof.
  intros Hne. destruct (Qeq_bool a b) eqn:E; [|reflexivity].
  apply Qeq_bool_iff in E. contradiction.
Qed.

(** The region of a handle of positive size around [c] holds exactly
    the points within half the size of [c] in both coordinates, the
    border included. *)
Lemma handle_rect_contains (s : Q) (c p : QPointF.t) :
  0 < s ->
  (QRectF.contains (TransformableRectItem.handle_rect s c) p = true <->
   QPointF.x c - s / 2 <= QPointF.x p <= QPointF.x c + s / 2 /\
   QPointF.y c - s / 2 <= QPointF.y p <= QPointF.y c + s / 2).
Proof.
  intros Hs. destruct c as [cx cy], p as [px py].
  unfold QRectF.contains, TransformableRectItem.handle_rect,
    QRectF.of_point_size, QPointF.sub.
  cbn [QRectF.x QRectF.y QRectF.width QRectF.height QPointF.x QPointF.y
       QSizeF.width QSizeF.height].
  assert (Hneg : QRectF.Qltb s 0 = false) by (apply Qltb_false_iff; lra).
  assert (Hhalf : s == s / 2 + s / 2) by field.
  rewrite Hneg.
  rewrite (Qeq_bool_false (cx - s / 2) (cx - s / 2 + s)) by lra.
  rewrite (Qeq_bool_false (cy - s / 2) (cy - s / 2 + s)) by lra.
  destruct (QRectF.Qltb px (cx - s / 2)) eqn:E1;
    destruct (QRectF.Qltb (cx - s / 2 + s) px) eqn:E2;
    destruct (QRectF.Qltb py (cy - s / 2)) eqn:E3;
    destruct (QRectF.Qltb (cy - s / 2 + s) py) eqn:E4;
    cbn [orb];
    try apply Qltb_true in E1; try apply Qltb_true in E2;
    try apply Qltb_true in E3; try apply Qltb_true in E4;
    try apply Qltb_false in E1; try apply Qltb_false in E2;
    try apply Qltb_false in E3; try apply Qltb_false in E4;
    (split; [intros H; try discriminate; repeat split; lra
            |intros [[H1 H2] [H3 H4]]; try reflexivity; exfalso; lra]).
Qed.

(** X1: [update_handles] gives no handle in translation mode, the one
    handle [rotate] in rotation mode and the four corner handles
    top_left, top_right, bottom_left, bottom_right, in this order, in
    the other modes.  Every handle is a square of side [handle_size]
    centred on its anchor: the corner it names, and for [rotate] the
    point 20 above the middle of the top edge. *)
Theorem update_handles_layout (it : TransformableRectItem.t) :
  let it' := TransformableRectItem.update_handles it in
  List.map fst (TransformableRectItem.handles it')
  = mode_handle_names (TransformableRectItem.transform_mode it) /\
  Forall (fun hr =>
            QRectF.width (snd hr) = TransformableRectItem.handle_size it /\
            QRectF.height (snd hr) = TransformableRectItem.handle_size it /\
            QPointF.eqv (QRectF.center (snd hr))
                        (handle_anchor (fst hr) (TransformableRectItem.rect it)))
         (TransformableRectItem.handles it').
Proof.
  destruct it as [[[x y w h] p a m o sel] s hs hsel md orr oc].
  cbv zeta. split.
  - destruct md; reflexivity.
  - destruct md; cbn; repeat constructor; cbn; field.
Qed.

(** X2: [update_handles] only replaces the handle list, and running it
    twice is the same as running it once. *)
Theorem update_handles_idempotent (it : TransformableRectItem.t) :
  TransformableRectItem.update_handles (TransformableRectItem.update_handles it)
  = TransformableRectItem.update_handles it /\
  TransformableRectItem.update_handles it
  = TransformableRectItem.with_handles
      (TransformableRectItem.handles (TransformableRectItem.update_handles it)) it.
Proof.
  destruct it as [q s hs hsel md orr oc]. split; reflexivity.
Qed.

Lemma handle_at_split (hs : list (HandleName * QRectF.t)) (p : QPointF.t) :
  match TransformableRectItem.handle_at hs p with
  | Some h =>
      exists before r after,
        hs = before ++ (h, r) :: after /\
        QRectF.contains r p = true /\
        Forall (fun hr => QRectF.contains (snd hr) p = false) before
  | None => Forall (fun hr => QRectF.contains (snd hr) p = false) hs
  end.
Proof.
  induction hs as [|[h r] tl IH]; cbn [TransformableRectItem.handle_at].
  - constructor.
  - destruct (QRectF.contains r p) eqn:Hr.
    + exists [], r, tl. repeat split; [exact Hr | constructor].
    + destruct (TransformableRectItem.handle_at tl p) as [h'|].
      * destruct IH as (before & r' & after & -> & Hin & Hbefore).
        exists ((h, r) :: before), r', after. repeat split; [exact Hin|].
        constructor; [exact Hr | exact Hbefore].
      * constructor; [exact Hr | exact IH].
Qed.

(** X3: the hit test returns the first handle of the list whose region
    holds the point: no handle in front of it does; it returns nothing
    exactly when no region holds the point. *)
Theorem handle_at_first_hit (hs : list (HandleName * QRectF.t)) (p : QPointF.t) :
  (forall h,
      TransformableRectItem.handle_at hs p = Some h ->
      exists before r after,
        hs = before ++ (h, r) :: after /\
        QRectF.contains r p = true /\
        Forall (fun hr => QRectF.contains (snd hr) p = false) before) /\
  (TransformableRectItem.handle_at hs p = None <->
   Forall (fun hr => QRectF.contains (snd hr) p = false) hs).
Proof.
  pose proof (handle_at_split hs p) as Hsplit. split.
  - intros h Hh. now rewrite Hh in Hsplit.
  - split.
    + intros Hnone. now rewrite Hnone in Hsplit.
    + intros Hall. destruct (TransformableRectItem.handle_at hs p) as [h|];
        [|reflexivity].
      destruct Hsplit as (before & r & after & -> & Hin & _).
      apply Forall_app in Hall. destruct Hall as [_ Hall].
      inversion Hall as [|? ? Hr _]. cbn in Hr. congruence.
Qed.

Lemma handle_at_first_hit_witness :
  TransformableRectItem.handle_at
    (TransformableRectItem.handles (shape rect_100_50 scaling None)) (pt 99 1)
  = Some top_right /\
  exists before r after,
    TransformableRectItem.handles (shape rect_100_50 scaling None)
    = before ++ (top_right, r) :: after /\
    QRectF.contains r (pt 99 1) = true /\
    Forall (fun hr => QRectF.contains (snd hr) (pt 99 1) = false) before.
Proof.
  split; [vm_compute; reflexivity|].
  apply (proj1 (handle_at_first_hit
                  (TransformableRectItem.handles (shape rect_100_50 scaling None))
                  (pt 99 1)) top_right).
  vm_compute. reflexivity.
Defined.

(** The fresh handle list, written out. *)
Lemma fresh_handles_explicit (it : TransformableRectItem.t) :
  TransformableRectItem.handles_fresh it ->
  TransformableRectItem.handles it
  = List.map (fun h =>
                (h, TransformableRectItem.handle_rect
                      (TransformableRectItem.handle_size it)
                      (handle_anchor h (TransformableRectItem.rect it))))
             (mode_handle_names (TransformableRectItem.transform_mode it)).
Proof.
  unfold TransformableRectItem.handles_fresh. intros ->.
  destruct it as [q s hs hsel md orr oc]. destruct md; reflexivity.
Qed.

(** The hit test on handle squares around the anchors of [names]. *)
Lemma handle_at_squares (s : Q) (r : QRectF.t) (p : QPointF.t)
    (names : list HandleName) :
  0 < s ->
  match TransformableRectItem.handle_at
          (List.map (fun h =>
                       (h, TransformableRectItem.handle_rect s (handle_anchor h r)))
                    names) p with
  | Some h =>
      exists before after,
        names = before ++ h :: after /\
        in_handle_square s (handle_anchor h r) p /\
        Forall (fun h' => ~ in_handle_square s (handle_anchor h' r) p) before
  | None => Forall (fun h' => ~ in_handle_square s (handle_anchor h' r) p) names
  end.
Proof.
  intros Hs. induction names as [|h tl IH];
    cbn [List.map TransformableRectItem.handle_at].
  - constructor.
  - pose proof (handle_rect_contains s (handle_anchor h r) p Hs) as Hsq.
    fold (in_handle_square s (handle_anchor h r) p) in Hsq.
    destruct (QRectF.contains _ p) eqn:Hin.
    + exists [], tl. split; [reflexivity|]. split; [now apply Hsq | constructor].
    + assert (Hout : ~ in_handle_square s (handle_anchor h r) p).
      { intros Hp. apply Hsq in Hp. discriminate. }
      destruct (TransformableRectItem.handle_at _ p) as [h'|].
      * destruct IH as (before & after & -> & Hh' & Hbefore).
        exists (h :: before), after. split; [reflexivity|]. split; [exact Hh'|].
        constructor; assumption.
      * constructor; assumption.
Qed.

(** X4: a press on a selected shape whose handles are up to date makes
    active the first handle of its mode, in the order of the handle
    list, whose square (half the handle size around the anchor, border
    included) holds the pointer; no handle becomes active exactly when
    the pointer is in none of the squares.  The press does not change
    the rectangle, the transform, the rotation or the position. *)
Theorem press_activates_handle_under_pointer
    (host : QtHost) (ev : QGraphicsSceneMouseEvent.t)
    (it : TransformableRectItem.t) :
  TransformableRectItem.isSelected it = true ->
  TransformableRectItem.handles_fresh it ->
  0 < TransformableRectItem.handle_size it ->
  let p := QGraphicsSceneMouseEvent.pos ev in
  let s := TransformableRectItem.handle_size it in
  let r := TransformableRectItem.rect it in
  let names := mode_handle_names (TransformableRectItem.transform_mode it) in
  let it' := TransformableRectItem.mousePressEvent ev it in
  (forall h,
      TransformableRectItem.handle_selected it' = Some h ->
      exists before after,
        names = before ++ h :: after /\
        in_handle_square s (handle_anchor h r) p /\
        Forall (fun h' => ~ in_handle_square s (handle_anchor h' r) p) before) /\
  (TransformableRectItem.handle_selected it' = None <->
   Forall (fun h' => ~ in_handle_square s (handle_anchor h' r) p) names) /\
  TransformableRectItem.rect it' = r /\
  TransformableRectItem.transform it' = TransformableRectItem.transform it /\
  TransformableRectItem.rotation_property it'
  = TransformableRectItem.rotation_property it /\
  TransformableRectItem.pos it' = TransformableRectItem.pos it.
Proof.
  intros Hsel Hfresh Hs p s r names it'.
  assert (Hactive : TransformableRectItem.handle_selected it'
                    = TransformableRectItem.handle_at
                        (TransformableRectItem.handles it) p).
  { unfold it', TransformableRectItem.mousePressEvent. now rewrite Hsel. }
  pose proof (handle_at_squares s r p names Hs) as Hhit.
  rewrite (fresh_handles_explicit it Hfresh) in Hactive.
  fold s r names in Hactive. rewrite <- Hactive in Hhit.
  split; [|split].
  - intros h Hh. now rewrite Hh in Hhit.
  - split.
    + intros Hnone. now rewrite Hnone in Hhit.
    + intros Hall.
      destruct (TransformableRectItem.handle_selected it') as [h|]; [|reflexivity].
      destruct Hhit as (before & after & Hnames & Hin & _).
      rewrite Hnames in Hall. apply Forall_app in Hall.
      destruct Hall as [_ Hall]. inversion Hall. contradiction.
  - unfold it', TransformableRectItem.mousePressEvent. rewrite Hsel.
    repeat split.
Qed.

Lemma press_activates_handle_under_pointer_witness :
  let it := TransformableRectItem.setSelected true (shape rect_100_50 rotation None) in
  let it' := @TransformableRectItem.mousePressEvent exact_host (pointer_at 52 (-23)) it in
  TransformableRectItem.handle_selected it' = Some rotate /\
  exists before after,
    [rotate] = before ++ rotate :: after /\
    in_handle_square 8 (handle_anchor rotate rect_100_50) (pt 52 (-23)) /\
    Forall (fun h' => ~ in_handle_square 8 (handle_anchor h' rect_100_50) (pt 52 (-23)))
           before.
Proof.
  split; [vm_compute; reflexivity|].
  refine (proj1 (press_activates_handle_under_pointer exact_host (pointer_at 52 (-23))
                   (TransformableRectItem.setSelected true
                      (shape rect_100_50 rotation None))
                   eq_refl eq_refl _) rotate _).
  - vm_compute. reflexivity.
  - vm_compute. reflexivity.
Defined.

Lemma hover_cursor_handle_at (hs : list (HandleName * QRectF.t)) (p : QPointF.t) :
  TransformableRectItem.hover_cursor hs p
  = option_map handle_cursor (TransformableRectItem.handle_at hs p).
Proof.
  induction hs as [|[h r] tl IH]; cbn; [reflexivity|].
  destruct (QRectF.contains r p); [now destruct h | exact IH].
Qed.

(** X5: the cursor shown while hovering tells what a press at the same
    point would do.  On a selected shape it is the arrow exactly when
    the press would leave no handle active, the cross exactly when the
    press would make [rotate] active, and the diagonal resize cursor
    exactly when it would make a corner handle active.  On a shape
    that is not selected it is the arrow. *)
Theorem hover_cursor_matches_press
    (host : QtHost) (ev : QGraphicsSceneMouseEvent.t)
    (it : TransformableRectItem.t) :
  (TransformableRectItem.isSelected it = false ->
   TransformableRectItem.hoverMoveEvent ev it = ArrowCursor) /\
  (TransformableRectItem.isSelected it = true ->
   let active :=
     TransformableRectItem.handle_selected
       (TransformableRectItem.mousePressEvent ev it) in
   (TransformableRectItem.hoverMoveEvent ev it = ArrowCursor <-> active = None) /\
   (TransformableRectItem.hoverMoveEvent ev it = CrossCursor <-> active = Some rotate) /\
   (TransformableRectItem.hoverMoveEvent ev it = SizeFDiagCursor <->
    exists h, h <> rotate /\ active = Some h)).
Proof.
  unfold TransformableRectItem.hoverMoveEvent, TransformableRectItem.mousePressEvent.
  split; intros Hsel; rewrite Hsel; [reflexivity|].
  cbn. rewrite hover_cursor_handle_at.
  destruct (TransformableRectItem.handle_at _ _) as [h|]; cbn.
  - destruct h; cbn; repeat split; intros H; try discriminate; try reflexivity;
      try (destruct H as (h' & Hne & Heq); inversion Heq; subst; contradiction);
      eexists; (split; [|reflexivity]); discriminate.
  - repeat split; intros H; try discriminate; try reflexivity.
    destruct H as (h' & _ & Heq). discriminate.
Qed.

Lemma hover_cursor_matches_press_witness :
  let it := TransformableRectItem.setSelected true (shape rect_100_50 scaling None) in
  let ev := pointer_at 101 49 in
  @TransformableRectItem.hoverMoveEvent ev it = SizeFDiagCursor /\
  exists h, h <> rotate /\
    TransformableRectItem.handle_selected
      (@TransformableRectItem.mousePressEvent exact_host ev it) = Some h.
Proof.
  split; [vm_compute; reflexivity|].
  refine (proj1 (proj2 (proj2 (proj2 (hover_cursor_matches_press exact_host
            (pointer_at 101 49)
            (TransformableRectItem.setSelected true (shape rect_100_50 scaling None)))
            eq_refl))) _).
  vm_compute. reflexivity.
Defined.

(* ================================================================= *)
(** ** Drags, one after another *)

(** X6: in scaling mode a move with a handle active returns and
    changes only the base rectangle and the handle list, which is
    recomputed for the new rectangle: the transform, the rotation, the
    position, the active handle, the mode and the frozen geometry are
    kept.  The coordinates that the moved edges do not own are kept as
    they are: x and y with bottom_right, x with top_right, y with
    bottom_left; with [rotate] active the rectangle is not changed. *)
Theorem scaling_drag_changes_only_the_rect
    (host : QtHost) (ev : QGraphicsSceneMouseEvent.t)
    (it : TransformableRectItem.t) (h : HandleName) :
  TransformableRectItem.transform_mode it = scaling ->
  TransformableRectItem.handle_selected it = Some h ->
  exists it',
    TransformableRectItem.mouseMoveEvent ev it = Returned it' /\
    it' = TransformableRectItem.update_handles
            (TransformableRectItem.setRect (TransformableRectItem.rect it') it) /\
    TransformableRectItem.handles_fresh it' /\
    TransformableRectItem.transform it' = TransformableRectItem.transform it /\
    TransformableRectItem.rotation_property it'
    = TransformableRectItem.rotation_property it /\
    TransformableRectItem.pos it' = TransformableRectItem.pos it /\
    TransformableRectItem.original_corners it'
    = TransformableRectItem.original_corners it /\
    (h = bottom_right ->
     QRectF.x (TransformableRectItem.rect it') = QRectF.x (TransformableRectItem.rect it) /\
     QRectF.y (TransformableRectItem.rect it') = QRectF.y (TransformableRectItem.rect it)) /\
    (h = top_right ->
     QRectF.x (TransformableRectItem.rect it') = QRectF.x (TransformableRectItem.rect it)) /\
    (h = bottom_left ->
     QRectF.y (TransformableRectItem.rect it') = QRectF.y (TransformableRectItem.rect it)) /\
    (h = rotate ->
     TransformableRectItem.rect it' = TransformableRectItem.rect it).
Proof.
  intros Hmode Hsel.
  exists (TransformableRectItem.resize_item (QGraphicsSceneMouseEvent.pos ev) it).
  split.
  { unfold TransformableRectItem.mouseMoveEvent. now rewrite Hsel, Hmode. }
  destruct it as [[r p a m o sel] s hs hsel md orr oc].
  cbn in Hmode, Hsel. subst md hsel.
  repeat split; intros; subst; reflexivity.
Qed.

Lemma scaling_drag_changes_only_the_rect_witness :
  let it := shape rect_100_50 scaling (Some bottom_right) in
  exists it',
    @TransformableRectItem.mouseMoveEvent exact_host (pointer_at 150 80) it
    = Returned it' /\
    QRectF.x (TransformableRectItem.rect it') = 0 /\
    QRectF.y (TransformableRectItem.rect it') = 0 /\
    TransformableRectItem.transform it' = QTransform.identity.
Proof.
  destruct (scaling_drag_changes_only_the_rect exact_host (pointer_at 150 80)
              (shape rect_100_50 scaling (Some bottom_right)) bottom_right
              eq_refl eq_refl)
    as (it' & Hmove & _ & _ & Hm & _ & _ & _ & Hxy & _).
  exists it'. split; [exact Hmove|].
  destruct (Hxy eq_refl) as [Hx Hy].
  split; [exact Hx|]. split; [exact Hy | exact Hm].
Defined.

(** X8: rotation moves do not pile up: the rotation is set from the
    pointer position alone, so after two moves the shape is exactly
    what the second move alone would give. *)
Theorem rotation_drag_last_position_wins
    (host : QtHost) (ev1 ev2 : QGraphicsSceneMouseEvent.t)
    (it : TransformableRectItem.t) (h : HandleName) :
  TransformableRectItem.transform_mode it = rotation ->
  TransformableRectItem.handle_selected it = Some h ->
  exists it1,
    TransformableRectItem.mouseMoveEvent ev1 it = Returned it1 /\
    TransformableRectItem.mouseMoveEvent ev2 it1
    = TransformableRectItem.mouseMoveEvent ev2 it.
Proof.
  intros Hmode Hsel.
  destruct it as [q s hs hsel md orr oc]. cbn in Hmode, Hsel. subst md hsel.
  eexists. split; reflexivity.
Qed.

Lemma rotation_drag_last_position_wins_witness :
  let it := shape rect_100_50 rotation (Some rotate) in
  exists it1,
    @TransformableRectItem.mouseMoveEvent exact_host (pointer_at 0 25) it
    = Returned it1 /\
    @TransformableRectItem.mouseMoveEvent exact_host (pointer_at 50 (-20)) it1
    = @TransformableRectItem.mouseMoveEvent exact_host (pointer_at 50 (-20)) it.
Proof.
  exact (rotation_drag_last_position_wins exact_host (pointer_at 0 25)
           (pointer_at 50 (-20)) (shape rect_100_50 rotation (Some rotate)) rotate
           eq_refl eq_refl).
Defined.

(** X9: no drag ever sets a transform.  In affine and in perspective
    mode every move with a corner handle active raises TypeError,
    wherever the pointer is; and whenever a move returns, in any mode,
    the 3x3 transform of the shape is the one it had before. *)
Theorem corner_drag_always_raises (host : QtHost) :
  (forall (ev : QGraphicsSceneMouseEvent.t) (it : TransformableRectItem.t)
          (h : HandleName),
      TransformableRectItem.transform_mode it = affine \/
      TransformableRectItem.transform_mode it = perspective ->
      TransformableRectItem.handle_selected it = Some h ->
      h <> rotate ->
      TransformableRectItem.frozen_ok it ->
      TransformableRectItem.mouseMoveEvent ev it = Raised TypeError) /\
  (forall (ev : QGraphicsSceneMouseEvent.t) (it it' : TransformableRectItem.t),
      TransformableRectItem.mouseMoveEvent ev it = Returned it' ->
      TransformableRectItem.transform it' = TransformableRectItem.transform it).
Proof.
  split.
  - intros ev it h. apply corner_drag_raises.
  - intros ev it it' Hmove.
    destruct (move_returned ev it it' Hmove) as [-> | [-> | [-> | ->]]];
      reflexivity.
Qed.

Lemma corner_drag_always_raises_witness :
  @TransformableRectItem.mouseMoveEvent exact_host (pointer_at 120 70)
    (shape rect_100_50 perspective (Some bottom_right))
  = Raised TypeError.
Proof.
  refine (proj1 (corner_drag_always_raises exact_host) (pointer_at 120 70)
            (shape rect_100_50 perspective (Some bottom_right)) bottom_right
            (or_intror eq_refl) eq_refl _ eq_refl).
  discriminate.
Defined.


(** X11: the handle list stays up to date through a gesture: if it is
    the list [update_handles] would compute before a press, a move or a
    release, it still is afterwards, in every mode.  Mode switches and
    loading leave every shape with an up-to-date list. *)
Theorem handles_stay_fresh (host : QtHost) :
  (forall (ev : QGraphicsSceneMouseEvent.t) (it : TransformableRectItem.t),
      TransformableRectItem.handles_fresh it ->
      TransformableRectItem.handles_fresh (TransformableRectItem.mousePressEvent ev it) /\
      (forall it',
          TransformableRectItem.mouseMoveEvent ev it = Returned it' ->
          TransformableRectItem.handles_fresh it') /\
      TransformableRectItem.handles_fresh (TransformableRectItem.mouseReleaseEvent ev it)) /\
  (forall (mode : TransformMode) (w : MainWindow.t),
      Forall TransformableRectItem.handles_fresh
             (MainWindow.scene (MainWindow.set_transform_mode mode w))) /\
  (forall (mode : TransformMode) (rect_data : json) (it : TransformableRectItem.t),
      MainWindow.load_item mode rect_data = Some it ->
      TransformableRectItem.handles_fresh it).
Proof.
  split; [|split].
  - intros ev it Hfresh. unfold TransformableRectItem.handles_fresh in *.
    split; [|split].
    + unfold TransformableRectItem.mousePressEvent.
      destruct (TransformableRectItem.isSelected it); exact Hfresh.
    + intros it' Hmove.
      destruct (move_returned ev it it' Hmove) as [-> | [-> | [-> | ->]]];
        first [exact Hfresh | reflexivity].
    + exact Hfresh.
  - intros mode w. cbn [MainWindow.scene MainWindow.set_transform_mode].
    induction (MainWindow.scene w) as [|it s IH]; constructor;
      [reflexivity | exact IH].
  - intros mode rect_data it.
    unfold MainWindow.load_item, bind.
    repeat match goal with
           | |- context [match ?o with Some _ => _ | None => None end] =>
               destruct o; [|discriminate]
           end.
    intros H. inversion H. reflexivity.
Qed.

Lemma handles_stay_fresh_witness :
  let it := shape rect_100_50 scaling (Some bottom_right) in
  TransformableRectItem.handles_fresh it /\
  TransformableRectItem.handles_fresh
    (TransformableRectItem.resize_item (pt 150 80) it).
Proof.
  split; [reflexivity|].
  refine (proj1 (proj2 (proj1 (handles_stay_fresh exact_host) (pointer_at 150 80)
                          (shape rect_100_50 scaling (Some bottom_right)) _)) _ _).
  - reflexivity.
  - reflexivity.
Defined.

(** X12: painting a selected shape recomputes its handle list and
    draws exactly the handle squares of the shape's current rectangle
    and mode; painting a shape that is not selected draws no handle and
    changes nothing.  Painting never changes the rectangle, the
    transform or the active handle, and painting twice is the same as
    painting once. *)
Theorem paint_draws_fresh_handles (it : TransformableRectItem.t) :
  let it' := fst (TransformableRectItem.paint it) in
  (TransformableRectItem.isSelected it = true ->
   TransformableRectItem.handles_fresh it' /\
   snd (TransformableRectItem.paint it)
   = List.map (fun h =>
                 TransformableRectItem.handle_rect
                   (TransformableRectItem.handle_size it)
                   (handle_anchor h (TransformableRectItem.rect it)))
              (mode_handle_names (TransformableRectItem.transform_mode it))) /\
  (TransformableRectItem.isSelected it = false ->
   TransformableRectItem.paint it = (it, [])) /\
  TransformableRectItem.qitem it' = TransformableRectItem.qitem it /\
  TransformableRectItem.handle_selected it' = TransformableRectItem.handle_selected it /\
  TransformableRectItem.paint it' = (it', snd (TransformableRectItem.paint it)).
Proof.
  destruct it as [[r p a m o sel] s hs hsel md orr oc].
  unfold TransformableRectItem.paint, TransformableRectItem.isSelected.
  cbn [TransformableRectItem.qitem QGraphicsRectItem.isSelected].
  destruct sel; cbn.
  - repeat split; try discriminate; destruct md; reflexivity.
  - repeat split; discriminate.
Qed.

Lemma paint_draws_fresh_handles_witness :
  let it := TransformableRectItem.setRect (QRectF.mk 0 0 150 80)
              (TransformableRectItem.setSelected true
                 (shape rect_100_50 rotation None)) in
  ~ TransformableRectItem.handles_fresh it /\
  TransformableRectItem.handles_fresh (fst (TransformableRectItem.paint it)).
Proof.
  split; [vm_compute; discriminate|].
  exact (proj1 (proj1 (paint_draws_fresh_handles
           (TransformableRectItem.setRect (QRectF.mk 0 0 150 80)
              (TransformableRectItem.setSelected true
                 (shape rect_100_50 rotation None)))) eq_refl)).
Defined.

(* ================================================================= *)
(** ** The drawing gesture *)

Lemma update_at_last (s : QGraphicsScene.t) (it : TransformableRectItem.t)
    (f : TransformableRectItem.t -> TransformableRectItem.t) :
  MainWindow.update_at (s ++ [it]) (List.length s) f = s ++ [f it].
Proof.
  induction s as [|a s IH]; cbn; [reflexivity|]. now rewrite IH.
Qed.

Lemma update_at_twice (s : QGraphicsScene.t) (i : nat)
    (f g : TransformableRectItem.t -> TransformableRectItem.t) :
  MainWindow.update_at (MainWindow.update_at s i f) i g
  = MainWindow.update_at s i (fun it => g (f it)).
Proof.
  revert i. induction s as [|a s IH]; intros [|i]; cbn; try reflexivity.
  now rewrite IH.
Qed.

Lemma update_at_length (s : QGraphicsScene.t) (i : nat)
    (f : TransformableRectItem.t -> TransformableRectItem.t) :
  List.length (MainWindow.update_at s i f) = List.length s.
Proof.
  revert i. induction s as [|a s IH]; intros [|i]; cbn; try reflexivity.
  now rewrite IH.
Qed.

(** The rectangle spanned by two points does not depend on which of
    them comes first, once normalised. *)
Lemma normalized_of_points_swap (a b : QPointF.t) :
  QRectF.eqv (QRectF.normalized (QRectF.of_points a b))
             (QRectF.normalized (QRectF.of_points b a)).
Proof.
  destruct a as [ax ay], b as [bx by_].
  unfold QRectF.normalized, QRectF.of_points, QRectF.eqv.
  cbn [QPointF.x QPointF.y QRectF.x QRectF.y QRectF.width QRectF.height].
  destruct (QRectF.Qltb (bx - ax) 0) eqn:E1;
    destruct (QRectF.Qltb (ax - bx) 0) eqn:E2;
    cbn [QRectF.x QRectF.y QRectF.width QRectF.height];
    destruct (QRectF.Qltb (by_ - ay) 0) eqn:E3;
    destruct (QRectF.Qltb (ay - by_) 0) eqn:E4;
    cbn [QRectF.x QRectF.y QRectF.width QRectF.height];
    try apply Qltb_true in E1; try apply Qltb_true in E2;
    try apply Qltb_true in E3; try apply Qltb_true in E4;
    try apply Qltb_false in E1; try apply Qltb_false in E2;
    try apply Qltb_false in E3; try apply Qltb_false in E4;
    repeat split; lra.
Qed.

(** The window after a whole gesture on empty canvas. *)
Lemma draw_gesture_result {host : QtHost} (a b : QPointF.t) (w : MainWindow.t) :
  MainWindow.item_at (left_click a) w = None ->
  draw_gesture a b w
  = MainWindow.mk
      (MainWindow.scene w ++ [drawn_shape (MainWindow.transform_mode w) a b])
      None false (MainWindow.transform_mode w) (Some a).
Proof.
  intros Hfree. unfold draw_gesture, MainWindow.mousePressEvent.
  rewrite Hfree. cbn [left_click QMouseEvent.left_button QMouseEvent.scene_pos].
  unfold MainWindow.mouseMoveEvent.
  cbn [MainWindow.drawing MainWindow.current_rect MainWindow.start_pos
       MainWindow.scene MainWindow.with_scene QMouseEvent.scene_pos].
  unfold QGraphicsScene.addItem. rewrite update_at_last.
  unfold MainWindow.mouseReleaseEvent.
  cbn [MainWindow.drawing MainWindow.current_rect MainWindow.start_pos
       MainWindow.scene MainWindow.transform_mode MainWindow.with_scene
       left_click QMouseEvent.left_button QMouseEvent.scene_pos andb].
  rewrite update_at_last. reflexivity.
Qed.

(** X13: a whole drawing gesture on empty canvas (left press at [a],
    move to [b], release) appends exactly one shape to the collection,
    as the last and so top-most one, and leaves the window idle.  The
    new shape has the normalised rectangle spanned by [a] and [b], of
    non-negative width and height, the identity transform, the
    window's current mode, is selected, has no active handle, an
    up-to-date handle list and the corners of its rectangle as frozen
    corners. *)
Theorem draw_gesture_adds_one_shape
    (host : QtHost) (a b : QPointF.t) (w : MainWindow.t) :
  MainWindow.item_at (left_click a) w = None ->
  exists it,
    draw_gesture a b w
    = MainWindow.mk (MainWindow.scene w ++ [it]) None false
        (MainWindow.transform_mode w) (Some a) /\
    QGraphicsScene.items (MainWindow.scene (draw_gesture a b w))
    = it :: QGraphicsScene.items (MainWindow.scene w) /\
    TransformableRectItem.rect it = QRectF.normalized (QRectF.of_points a b) /\
    0 <= QRectF.width (TransformableRectItem.rect it) /\
    0 <= QRectF.height (TransformableRectItem.rect it) /\
    TransformableRectItem.transform it = QTransform.identity /\
    TransformableRectItem.transform_mode it = MainWindow.transform_mode w /\
    TransformableRectItem.isSelected it = true /\
    TransformableRectItem.handle_selected it = None /\
    TransformableRectItem.handles_fresh it /\
    TransformableRectItem.frozen_ok it.
Proof.
  intros Hfree. exists (drawn_shape (MainWindow.transform_mode w) a b).
  rewrite (draw_gesture_result a b w Hfree).
  split; [reflexivity|]. split.
  { cbn [MainWindow.scene]. apply items_addItem. }
  split; [reflexivity|].
  split; [apply normalized_nonneg|]. split; [apply normalized_nonneg|].
  repeat split.
Qed.

Lemma draw_gesture_adds_one_shape_witness :
  exists it,
    @draw_gesture exact_host (pt 0 0) (pt 100 50) MainWindow.init
    = MainWindow.mk [it] None false translation (Some (pt 0 0)) /\
    QRectF.eqv (TransformableRectItem.rect it) rect_100_50 /\
    TransformableRectItem.transform it = QTransform.identity.
Proof.
  destruct (draw_gesture_adds_one_shape exact_host (pt 0 0) (pt 100 50)
              MainWindow.init eq_refl)
    as (it & Hw & _ & Hrect & _ & _ & Hid & _).
  exists it. split; [exact Hw|]. split; [|exact Hid].
  rewrite Hrect. repeat split; vm_compute; reflexivity.
Defined.

(** X14: the direction of the drawing gesture does not matter: drawing
    from [a] to [b] and drawing from [b] to [a] append shapes with the
    same base rectangle (x, y, width and height agree). *)
Theorem draw_direction_irrelevant
    (host : QtHost) (a b : QPointF.t) (w : MainWindow.t) :
  MainWindow.item_at (left_click a) w = None ->
  MainWindow.item_at (left_click b) w = None ->
  exists it1 it2,
    MainWindow.scene (draw_gesture a b w) = MainWindow.scene w ++ [it1] /\
    MainWindow.scene (draw_gesture b a w) = MainWindow.scene w ++ [it2] /\
    QRectF.eqv (TransformableRectItem.rect it1) (TransformableRectItem.rect it2).
Proof.
  intros Ha Hb.
  exists (drawn_shape (MainWindow.transform_mode w) a b),
         (drawn_shape (MainWindow.transform_mode w) b a).
  rewrite (draw_gesture_result a b w Ha), (draw_gesture_result b a w Hb).
  split; [reflexivity|]. split; [reflexivity|].
  apply normalized_of_points_swap.
Qed.

Lemma draw_direction_irrelevant_witness :
  exists it1 it2,
    MainWindow.scene (@draw_gesture exact_host (pt 100 50) (pt 0 0) MainWindow.init)
    = [it1] /\
    MainWindow.scene (@draw_gesture exact_host (pt 0 0) (pt 100 50) MainWindow.init)
    = [it2] /\
    QRectF.eqv (TransformableRectItem.rect it1) (TransformableRectItem.rect it2).
Proof.
  exact (draw_direction_irrelevant exact_host (pt 100 50) (pt 0 0) MainWindow.init
           eq_refl eq_refl).
Defined.

(** X15: while a shape is being drawn, a move sets the rectangle of
    that shape and changes nothing else: the number of shapes, every
    other shape and the rest of the window stay as they were.  Moves
    do not pile up: after two moves the window is what the second move
    alone would give. *)
Theorem draw_move_sets_only_the_new_rect
    (ev1 ev2 : QMouseEvent.t) (w : MainWindow.t)
    (i : nat) (start : QPointF.t) :
  MainWindow.drawing w = true ->
  MainWindow.current_rect w = Some i ->
  MainWindow.start_pos w = Some start ->
  let w' := MainWindow.mouseMoveEvent ev2 w in
  let r := QRectF.normalized (QRectF.of_points start (QMouseEvent.scene_pos ev2)) in
  List.length (MainWindow.scene w') = List.length (MainWindow.scene w) /\
  (forall j, j <> i ->
             nth_error (MainWindow.scene w') j = nth_error (MainWindow.scene w) j) /\
  nth_error (MainWindow.scene w') i
  = option_map (TransformableRectItem.setRect r) (nth_error (MainWindow.scene w) i) /\
  w' = MainWindow.with_scene (MainWindow.scene w') w /\
  MainWindow.mouseMoveEvent ev2 (MainWindow.mouseMoveEvent ev1 w) = w'.
Proof.
  intros Hd Hc Hs w' r. subst w' r. unfold MainWindow.mouseMoveEvent.
  rewrite Hd, Hc, Hs.
  cbn [MainWindow.drawing MainWindow.current_rect MainWindow.start_pos
       MainWindow.scene MainWindow.with_scene].
  rewrite Hd, Hc, Hs. split; [apply update_at_length|]. split.
  { intros j Hj. rewrite update_at_nth.
    destruct (Nat.eqb_spec j i); [contradiction | reflexivity]. }
  split.
  { rewrite update_at_nth, Nat.eqb_refl. reflexivity. }
  split; [reflexivity|].
  rewrite update_at_twice. reflexivity.
Qed.

Lemma draw_move_sets_only_the_new_rect_witness :
  let w := @MainWindow.mousePressEvent exact_host (left_click (pt 0 0))
             (window_with [shape_b]) in
  MainWindow.mouseMoveEvent (left_click (pt 100 50))
    (MainWindow.mouseMoveEvent (left_click (pt (-30) 70)) w)
  = MainWindow.mouseMoveEvent (left_click (pt 100 50)) w.
Proof.
  exact (proj2 (proj2 (proj2 (proj2
           (draw_move_sets_only_the_new_rect
              (left_click (pt (-30) 70)) (left_click (pt 100 50))
              (@MainWindow.mousePressEvent exact_host (left_click (pt 0 0))
                 (window_with [shape_b]))
              1%nat (pt 0 0) eq_refl eq_refl eq_refl))))).
Defined.

(* ================================================================= *)
(** ** Mode switches, one after another *)

(** X16: of two mode switches in a row only the second counts: the
    window is what the second switch alone would give.  Switching to
    the mode the window is already in, a second time, changes nothing
    more. *)
Theorem set_transform_mode_last_wins (m1 m2 : TransformMode) (w : MainWindow.t) :
  MainWindow.set_transform_mode m2 (MainWindow.set_transform_mode m1 w)
  = MainWindow.set_transform_mode m2 w /\
  MainWindow.set_transform_mode m2 (MainWindow.set_transform_mode m2 w)
  = MainWindow.set_transform_mode m2 w.
Proof.
  assert (Hlast : forall a b,
             MainWindow.set_transform_mode b (MainWindow.set_transform_mode a w)
             = MainWindow.set_transform_mode b w).
  { intros a b. unfold MainWindow.set_transform_mode.
    cbn [MainWindow.scene MainWindow.current_rect MainWindow.drawing
         MainWindow.start_pos].
    f_equal. rewrite map_map. apply map_ext.
    intros [q s hs hsel md orr oc]. reflexivity. }
  split; apply Hlast.
Qed.

(* ================================================================= *)
(** ** Loading, record by record *)

Lemma load_loop_all (mode : TransformMode) (rects : list json)
    (added : list TransformableRectItem.t) :
  List.map (MainWindow.load_item mode) rects = List.map Some added ->
  forall s, MainWindow.load_loop mode rects s = (s ++ added, true).
Proof.
  revert added. induction rects as [|rd rest IH]; intros [|it added] Hmap s;
    try discriminate; cbn [MainWindow.load_loop].
  - now rewrite app_nil_r.
  - cbn [List.map] in Hmap. injection Hmap as Hit Hrest.
    rewrite Hit, (IH added Hrest). unfold QGraphicsScene.addItem.
    now rewrite <- app_assoc.
Qed.

Ltac open_option H :=
  match type of H with
  | match ?o with Some _ => _ | None => None end = Some _ =>
      let E := fresh "E" in
      destruct o eqn:E; [|discriminate H]
  end.

Lemma load_item_spec
    (mode : TransformMode) (rect_data : json) (it : TransformableRectItem.t) :
  MainWindow.load_item mode rect_data = Some it <->
  exists x y width height transform_data m11 m12 m13 m21 m22 m23 m31 m32 m33,
    (num_at rect_data "x" = Some x /\
     num_at rect_data "y" = Some y /\
     num_at rect_data "width" = Some width /\
     num_at rect_data "height" = Some height /\
     subscript rect_data "transform" = Some transform_data /\
     num_at transform_data "m11" = Some m11 /\
     num_at transform_data "m12" = Some m12 /\
     num_at transform_data "m13" = Some m13 /\
     num_at transform_data "m21" = Some m21 /\
     num_at transform_data "m22" = Some m22 /\
     num_at transform_data "m23" = Some m23 /\
     num_at transform_data "m31" = Some m31 /\
     num_at transform_data "m32" = Some m32 /\
     num_at transform_data "m33" = Some m33)%string /\
    it = loaded_shape mode (QRectF.mk x y width height)
           (QTransform.mk m11 m12 m13 m21 m22 m23 m31 m32 m33).
Proof.
  unfold MainWindow.load_item, num_at, bind, loaded_shape. split.
  - intros H. repeat open_option H. inversion H.
    do 14 eexists. repeat split;
      repeat match goal with
             | E : ?o = Some _ |- context [match ?o with _ => _ end] => rewrite E
             end; first [assumption | reflexivity].
  - intros (x & y & width & height & td & m11 & m12 & m13 & m21 & m22 & m23
            & m31 & m32 & m33
            & (Hx & Hy & Hw & Hh & Htd & H11 & H12 & H13 & H21 & H22 & H23
               & H31 & H32 & H33) & ->).
    rewrite Htd.
    open_option Hx. open_option Hy. open_option Hw. open_option Hh.
    open_option H11. open_option H12. open_option H13.
    open_option H21. open_option H22. open_option H23.
    open_option H31. open_option H32. open_option H33.
    rewrite Hx, Hy, Hw, Hh, H11, H12, H13, H21, H22, H23, H31, H32, H33.
    reflexivity.
Qed.

Lemma num_at_number (v : json) (k : string) (q : Q) :
  num_at v k = Some q ->
  exists f, subscript v k = Some f /\ is_number f.
Proof.
  unfold num_at, bind. destruct (subscript v k) as [f|]; [|discriminate].
  intros Hf. exists f. split; [reflexivity|].
  destruct f; try discriminate; exact I.
Qed.

(** The fields of a record that loads. *)
Lemma load_item_fields (mode : TransformMode) (rect_data : json)
    (it : TransformableRectItem.t) :
  MainWindow.load_item mode rect_data = Some it ->
  (forall k, In k rect_keys ->
             exists f, subscript rect_data k = Some f /\ is_number f) /\
  (exists transform_data,
      subscript rect_data "transform" = Some transform_data /\
      forall k, In k matrix_keys ->
                exists f, subscript transform_data k = Some f /\ is_number f).
Proof.
  intros Hload. apply load_item_spec in Hload.
  destruct Hload as (x & y & width & height & td & m11 & m12 & m13 & m21 & m22
                     & m23 & m31 & m32 & m33
                     & (Hx & Hy & Hw & Hh & Htd & H11 & H12 & H13 & H21 & H22
                        & H23 & H31 & H32 & H33) & _).
  split.
  - intros k Hk. cbn in Hk.
    destruct Hk as [<- | [<- | [<- | [<- | []]]]];
      eapply num_at_number; eassumption.
  - exists td. split; [exact Htd|]. intros k Hk. cbn in Hk.
    destruct Hk as [<- | [<- | [<- | [<- | [<- | [<- | [<- | [<- | [<- | []]]]]]]]]];
      eapply num_at_number; eassumption.
Qed.

(** X17: a record loads only if it is a dict that holds a number under
    each of ["x"], ["y"], ["width"], ["height"] and, under
    ["transform"], a dict that holds a number under each of ["m11"] to
    ["m33"]; a record that lacks one of the four keys or holds
    something else than a number there does not load.  The shape built
    from a record that loads is in the mode given, not selected,
    without active handle, unrotated, at position (0,0), with an
    up-to-date handle list and the corners of its rectangle frozen. *)
Theorem load_item_requires_numeric_fields
    (mode : TransformMode) (rect_data : json) :
  (forall it,
      MainWindow.load_item mode rect_data = Some it ->
      (forall k, In k rect_keys ->
                 exists f, subscript rect_data k = Some f /\ is_number f) /\
      (exists transform_data,
          subscript rect_data "transform" = Some transform_data /\
          forall k, In k matrix_keys ->
                    exists f, subscript transform_data k = Some f /\ is_number f) /\
      TransformableRectItem.transform_mode it = mode /\
      TransformableRectItem.isSelected it = false /\
      TransformableRectItem.handle_selected it = None /\
      TransformableRectItem.rotation_property it = 0 /\
      TransformableRectItem.pos it = QPointF.mk 0 0 /\
      TransformableRectItem.handles_fresh it /\
      TransformableRectItem.frozen_ok it) /\
  (forall k,
      In k rect_keys ->
      (forall f, subscript rect_data k = Some f -> ~ is_number f) ->
      MainWindow.load_item mode rect_data = None).
Proof.
  split.
  - intros it Hload.
    destruct (load_item_fields mode rect_data it Hload) as [Hrect Hmatrix].
    split; [exact Hrect|]. split; [exact Hmatrix|].
    apply load_item_spec in Hload.
    destruct Hload as (? & ? & ? & ? & ? & ? & ? & ? & ? & ? & ? & ? & ? & ? & _ & ->).
    repeat split.
  - intros k Hk Hbad.
    destruct (MainWindow.load_item mode rect_data) as [it|] eqn:Hload;
      [|reflexivity].
    destruct (load_item_fields mode rect_data it Hload) as [Hrect _].
    destruct (Hrect k Hk) as (f & Hf & Hnum).
    exfalso. exact (Hbad f Hf Hnum).
Qed.

Lemma load_item_requires_numeric_fields_witness :
  MainWindow.load_item scaling record_without_width = None.
Proof.
  refine (proj2 (load_item_requires_numeric_fields scaling record_without_width)
            "width"%string _ _).
  - cbn. auto.
  - intros f Hf. vm_compute in Hf. discriminate.
Defined.

Lemma load_success_spec
    (filename : string) (file : file_read) (w w' : MainWindow.t) :
  filename <> ""%string ->
  (MainWindow.load_rectangles filename file w = (w', false) <->
   exists rects l shapes,
     file = Parsed rects /\
     py_iter rects = Some l /\
     List.map (MainWindow.load_item (MainWindow.transform_mode w)) l
     = List.map Some shapes /\
     w' = MainWindow.with_scene shapes w).
Proof.
  intros Hname. unfold MainWindow.load_rectangles.
  destruct (String.eqb_spec filename ""); [contradiction|]. split.
  - destruct file as [| |rects]; try discriminate.
    destruct (py_iter rects) as [l|] eqn:Hiter; [|discriminate].
    destruct (MainWindow.load_loop _ l _) as [s finished] eqn:Hloop.
    intros H. inversion H as [[Hw Hfin]].
    destruct finished; [|discriminate].
    destruct (load_loop_finished _ _ _ _ Hloop) as (added & -> & Hmap).
    exists rects, l, added. repeat split; assumption.
  - intros (rects & l & shapes & -> & Hiter & Hmap & ->).
    rewrite Hiter, (load_loop_all _ _ _ Hmap). reflexivity.
Qed.

(** X18: with a file chosen, a load succeeds (no error box) exactly
    when the file opens and decodes to a value that can be iterated
    and every element of it loads as a record.  The collection is
    then replaced by one shape per element, in their order, and
    nothing else in the window changes.  An empty list, an empty dict
    and an empty string all load as the empty collection. *)
Theorem load_succeeds_exactly_on_loadable_documents
    (filename : string) (file : file_read) (w w' : MainWindow.t) :
  filename <> ""%string ->
  (MainWindow.load_rectangles filename file w = (w', false) <->
   exists rects l shapes,
     file = Parsed rects /\
     py_iter rects = Some l /\
     List.map (MainWindow.load_item (MainWindow.transform_mode w)) l
     = List.map Some shapes /\
     w' = MainWindow.with_scene shapes w).
Proof. exact (load_success_spec filename file w w'). Qed.

Lemma load_succeeds_exactly_on_loadable_documents_witness :
  MainWindow.load_rectangles "shapes.json" (Parsed (JObj [])) (window_with [shape_a])
  = (window_with [], false).
Proof.
  refine (proj2 (load_succeeds_exactly_on_loadable_documents "shapes.json"
                   (Parsed (JObj [])) (window_with [shape_a]) (window_with []) _) _).
  - discriminate.
  - exists (JObj []), [], []. repeat split.
Defined.

(* ================================================================= *)
(** ** Documents and what they keep *)

Lemma record_of_reloaded (mode : TransformMode) (it : TransformableRectItem.t) :
  MainWindow.record_of (reloaded mode it) = MainWindow.record_of it.
Proof. reflexivity. Qed.

Lemma load_saved_rects (filename : string) (l : list TransformableRectItem.t)
    (w : MainWindow.t) :
  filename <> ""%string ->
  MainWindow.load_rectangles filename
    (Parsed (JArr (List.map MainWindow.record_of l))) w
  = (MainWindow.with_scene (List.map (reloaded (MainWindow.transform_mode w)) l) w,
     false).
Proof.
  intros Hname. unfold MainWindow.load_rectangles.
  destruct (String.eqb_spec filename ""); [contradiction|].
  cbn [py_iter]. rewrite load_loop_records. reflexivity.
Qed.

(** X19: loading a document in the saved format and saving again gives
    the same records in reverse order: the numbers of every record
    come back unchanged, and a load followed by a save turns the
    document around. *)
Theorem load_then_save_reverses_document
    (filename : string) (l : list TransformableRectItem.t) (w : MainWindow.t) :
  filename <> ""%string ->
  let doc := List.map MainWindow.record_of l in
  let w' := fst (MainWindow.load_rectangles filename (Parsed (JArr doc)) w) in
  MainWindow.save_rectangles filename w' = Some (JArr (rev doc)).
Proof.
  intros Hname doc w'. subst doc w'.
  rewrite (load_saved_rects filename l w Hname).
  unfold MainWindow.save_rectangles.
  destruct (String.eqb_spec filename ""); [contradiction|].
  unfold MainWindow.saved_rects, QGraphicsScene.items.
  cbn [fst MainWindow.scene MainWindow.with_scene].
  assert (Hrev : List.map MainWindow.record_of
                   (rev (List.map (reloaded (MainWindow.transform_mode w)) l))
                 = rev (List.map MainWindow.record_of l)).
  { rewrite map_rev, map_map. reflexivity. }
  now rewrite Hrev.
Qed.

Lemma load_then_save_reverses_document_witness :
  let doc := [MainWindow.record_of shape_a; MainWindow.record_of shape_b] in
  MainWindow.save_rectangles "shapes.json"
    (fst (MainWindow.load_rectangles "shapes.json" (Parsed (JArr doc))
            (window_with [])))
  = Some (JArr [MainWindow.record_of shape_b; MainWindow.record_of shape_a]).
Proof.
  refine (load_then_save_reverses_document "shapes.json" [shape_a; shape_b]
            (window_with []) _).
  discriminate.
Defined.

(** X20: one save and load turns the stacking order of the shapes
    around, a second one turns it back: after saving and loading
    twice, the shapes have the rectangles and matrices of the original
    collection, in the original order. *)
Theorem two_round_trips_restore_order
    (filename : string) (w w0 : MainWindow.t) :
  filename <> ""%string ->
  let w1 :=
    fst (MainWindow.load_rectangles filename
           (Parsed (JArr (MainWindow.saved_rects w))) w0) in
  let w2 :=
    fst (MainWindow.load_rectangles filename
           (Parsed (JArr (MainWindow.saved_rects w1))) w1) in
  List.map geometry (MainWindow.scene w1) = rev (List.map geometry (MainWindow.scene w)) /\
  List.map geometry (MainWindow.scene w2) = List.map geometry (MainWindow.scene w).
Proof.
  intros Hname w1 w2. subst w2 w1. unfold MainWindow.saved_rects.
  rewrite (load_saved_rects filename _ w0 Hname).
  cbn [fst MainWindow.scene MainWindow.with_scene MainWindow.transform_mode].
  rewrite (load_saved_rects filename _ _ Hname).
  cbn [fst MainWindow.scene MainWindow.with_scene].
  unfold QGraphicsScene.items.
  assert (Hgeo : forall m l, List.map geometry (List.map (reloaded m) l)
                             = List.map geometry l).
  { intros m l. rewrite map_map. apply map_ext. intros it.
    apply geometry_reloaded. }
  split.
  - now rewrite Hgeo, map_rev.
  - rewrite Hgeo, map_rev, Hgeo, map_rev, rev_involutive. reflexivity.
Qed.

Lemma two_round_trips_restore_order_witness :
  let w := window_with [shape_a; shape_b] in
  let w1 :=
    fst (MainWindow.load_rectangles "shapes.json"
           (Parsed (JArr (MainWindow.saved_rects w))) (window_with [])) in
  let w2 :=
    fst (MainWindow.load_rectangles "shapes.json"
           (Parsed (JArr (MainWindow.saved_rects w1))) w1) in
  List.map geometry (MainWindow.scene w1) = [geometry shape_b; geometry shape_a] /\
  List.map geometry (MainWindow.scene w2) = [geometry shape_a; geometry shape_b].
Proof.
  refine (two_round_trips_restore_order "shapes.json"
            (window_with [shape_a; shape_b]) (window_with []) _).
  discriminate.
Defined.

(** X21: the mode is not persisted: a mode switch does not change the
    document that save writes, and the shapes that a load creates are
    all in the mode the window has at the time of the load. *)
Theorem mode_is_not_persisted
    (filename : string) (file : file_read) (mode : TransformMode)
    (w w' : MainWindow.t) :
  MainWindow.save_rectangles filename (MainWindow.set_transform_mode mode w)
  = MainWindow.save_rectangles filename w /\
  (MainWindow.load_rectangles filename file w = (w', false) ->
   filename <> ""%string ->
   Forall (fun it =>
             TransformableRectItem.transform_mode it = MainWindow.transform_mode w)
          (MainWindow.scene w')).
Proof.
  split.
  - unfold MainWindow.save_rectangles, MainWindow.saved_rects, QGraphicsScene.items.
    destruct (String.eqb filename ""); [reflexivity|].
    cbn [MainWindow.scene MainWindow.set_transform_mode].
    do 2 f_equal. rewrite <- !map_rev, map_map. apply map_ext. reflexivity.
  - intros Hload Hname.
    apply (load_success_spec filename file w w' Hname) in Hload.
    destruct Hload as (rects & l & shapes & _ & _ & Hmap & ->).
    cbn [MainWindow.scene MainWindow.with_scene].
    revert shapes Hmap. induction l as [|rd l IH]; intros [|it shapes] Hmap;
      try discriminate; constructor.
    + cbn [List.map] in Hmap. injection Hmap as Hit _.
      apply load_item_spec in Hit.
      destruct Hit as (? & ? & ? & ? & ? & ? & ? & ? & ? & ? & ? & ? & ? & ? & _ & ->).
      reflexivity.
    + cbn [List.map] in Hmap. injection Hmap as _ Hrest. now apply IH.
Qed.

Lemma mode_is_not_persisted_witness :
  let w := window_with [shape_a; shape_b] in
  Forall (fun it => TransformableRectItem.transform_mode it = rotation)
         (MainWindow.scene
            (fst (MainWindow.load_rectangles "shapes.json"
                    (Parsed (JArr (MainWindow.saved_rects w)))
                    (MainWindow.set_transform_mode rotation w)))).
Proof.
  refine (proj2 (mode_is_not_persisted "shapes.json"
                   (Parsed (JArr (MainWindow.saved_rects
                                    (window_with [shape_a; shape_b]))))
                   rotation
                   (MainWindow.set_transform_mode rotation
                      (window_with [shape_a; shape_b]))
                   _) _ _).
  - vm_compute. reflexivity.
  - discriminate.
Defined.

(* ================================================================= *)
(** ** The frozen corners, throughout *)

(** X22: the frozen corners are always the four corners, in the order
    top-left, top-right, bottom-right, bottom-left, of the frozen
    rectangle.  This holds for a new shape, for every shape a load
    creates and for the shape a drawing gesture leaves; a press, a
    move, a release and a mode switch keep it.  A move changes neither
    the frozen rectangle nor the frozen corners, so they are fixed for
    the whole gesture; only a release replaces them. *)
Theorem frozen_corners_invariant (host : QtHost) :
  (forall r, TransformableRectItem.frozen_ok (TransformableRectItem.init r)) /\
  (forall mode rect_data it,
      MainWindow.load_item mode rect_data = Some it ->
      TransformableRectItem.frozen_ok it) /\
  (forall mode a b, TransformableRectItem.frozen_ok (drawn_shape mode a b)) /\
  (forall ev it,
      TransformableRectItem.frozen_ok it ->
      TransformableRectItem.frozen_ok (TransformableRectItem.mousePressEvent ev it) /\
      (forall it',
          TransformableRectItem.mouseMoveEvent ev it = Returned it' ->
          TransformableRectItem.frozen_ok it') /\
      TransformableRectItem.frozen_ok (TransformableRectItem.mouseReleaseEvent ev it)) /\
  (forall mode w,
      Forall TransformableRectItem.frozen_ok (MainWindow.scene w) ->
      Forall TransformableRectItem.frozen_ok
             (MainWindow.scene (MainWindow.set_transform_mode mode w))) /\
  (forall ev it it',
      TransformableRectItem.mouseMoveEvent ev it = Returned it' ->
      TransformableRectItem.original_rect it'
      = TransformableRectItem.original_rect it /\
      TransformableRectItem.original_corners it'
      = TransformableRectItem.original_corners it).
Proof.
  split; [exact frozen_ok_init|].
  split; [exact frozen_ok_load_item|].
  split; [reflexivity|].
  split.
  { intros ev it Hok. split; [now apply frozen_ok_press|].
    split; [|apply frozen_ok_release].
    intros it' Hmove. unfold TransformableRectItem.frozen_ok.
    destruct (move_keeps_frozen_corners ev it it' Hmove) as [-> ->]. exact Hok. }
  split.
  { intros mode w Hall. cbn [MainWindow.scene MainWindow.set_transform_mode].
    induction Hall as [|it s Hit _ IH]; constructor; [exact Hit | exact IH]. }
  intros ev it it' Hmove.
  destruct (move_keeps_frozen_corners ev it it' Hmove) as [Hc Hr].
  split; assumption.
Qed.

Lemma frozen_corners_invariant_witness :
  let it := shape rect_100_50 scaling (Some bottom_right) in
  let it' := TransformableRectItem.resize_item (pt 150 80) it in
  @TransformableRectItem.mouseMoveEvent exact_host (pointer_at 150 80) it
  = Returned it' /\
  TransformableRectItem.original_corners it' = [pt 0 0; pt 100 0; pt 100 50; pt 0 50] /\
  TransformableRectItem.frozen_ok it'.
Proof.
  split; [reflexivity|]. split; [vm_compute; reflexivity|].
  refine (proj1 (proj2 (proj1 (proj2 (proj2 (proj2
            (frozen_corners_invariant exact_host))))
            (pointer_at 150 80) (shape rect_100_50 scaling (Some bottom_right)) _))
            _ _).
  - reflexivity.
  - reflexivity.
Defined.
